(** * django_sharding_library.decorators: the [model_config] class decorator

    A shallow embedding of [src/django_sharding_library/decorators.py].

    The decorator reads [settings.DATABASES], inspects a Django model class
    ([_meta], [objects], [get_shard], ...) and tags the class with
    [django_sharding__*] attributes, raising a configuration exception on
    misuse.  Python objects are mutable and shared, so the embedding threads an
    explicit [world] (the settings, the class objects and the manager
    instances, by reference) through a state-and-exception monad. *)

From stdpp Require Import gmap strings list fin_maps.

Local Open Scope string_scope.

(** ** Python values *)

Definition loc := nat.

(** The classes whose identity the decorator tests with [issubclass],
    [isinstance] and [type(x) == ...].  [ShardManager]
    ([django_sharding_library.manager]) derives from Django's [Manager];
    [ShardedIDFieldMixin] ([django_sharding_library.fields]) is a mixin with no
    modelled base.  Every other class is a [UserClass] with its direct bases. *)
#[warnings="-register-all"] Inductive pytype : Type :=
| Manager
| ShardManager
| ShardedIDFieldMixin
| UserClass (name : string) (bases : list pytype).

Fixpoint pytype_eqb (a b : pytype) : bool :=
  match a, b with
  | Manager, Manager => true
  | ShardManager, ShardManager => true
  | ShardedIDFieldMixin, ShardedIDFieldMixin => true
  | UserClass n bs, UserClass n' bs' =>
      String.eqb n n' &&
      (fix all2 (l l' : list pytype) : bool :=
         match l, l' with
         | [], [] => true
         | x :: l, y :: l' => pytype_eqb x y && all2 l l'
         | _, _ => false
         end) bs bs'
  | _, _ => false
  end.

(** [issubclass(t, target)]: [t] is [target] or one of its bases is a subclass
    of [target]. *)
Fixpoint issubclass (t target : pytype) : bool :=
  pytype_eqb t target ||
  match t with
  | ShardManager => pytype_eqb Manager target
  | UserClass _ bs => existsb (fun b => issubclass b target) bs
  | _ => false
  end.

(** The Python values that reach the decorator: its three arguments, the
    values stored in [settings.DATABASES] entries and the attributes of the
    class.  [PyObj l] is a reference to an instance (a manager, typically);
    [PyCallable] stands for any function or method object;
    [PyAbstractManagerDescriptor] is the descriptor Django leaves on an
    abstract model in place of a manager: reading it through the class raises
    [AttributeError]. *)
Inductive pyval : Type :=
| PyNone
| PyBool (b : bool)
| PyInt (n : Z)
| PyStr (s : string)
| PyCallable (qualname : string)
| PyObj (l : loc)
| PyAbstractManagerDescriptor.

(** Truth value testing, as [if x:] does it. *)
Definition truthy (v : pyval) : bool :=
  match v with
  | PyNone => false
  | PyBool b => b
  | PyInt n => negb (n =? 0)%Z
  | PyStr s => negb (String.eqb s EmptyString)
  | PyCallable _ | PyObj _ | PyAbstractManagerDescriptor => true
  end.

(** The builtin [callable]. *)
Definition callable (v : pyval) : bool :=
  match v with
  | PyCallable _ => true
  | _ => false
  end.

(** ** Django model classes *)

(** A model field.  Django compares fields by their [creation_counter]. *)
Record Field : Type := {
  field_name : string;
  field_type : pytype;
  creation_counter : nat
}.

(** [field == other], where [other] is [cls._meta.pk]: a field or [None]. *)
Definition Field_eq (field : Field) (other : option Field) : bool :=
  match other with
  | Some f => Nat.eqb (creation_counter field) (creation_counter f)
  | None => false
  end.

(** [cls._meta], restricted to what the decorator reads and to what the
    framework records there when a manager is added.  An entry of
    [abstract_managers] or [concrete_managers] is a triple
    [(creation_counter, name, manager)]; the decorator reads its third
    component, [x[2]], only, and the counter and the name are the
    framework's to choose: the lists keep the manager of each entry. *)
Record Options : Type := {
  model_name : string;
  fields : list Field;
  pk : option Field;
  abstract : bool;
  abstract_managers : list pyval;
  concrete_managers : list pyval
}.

(** A class object: its own namespace [__dict__], the classes it inherits
    attributes from ([ancestors] is [cls.__mro__[1:]]) and its [_meta]. *)
Record pyclass : Type := {
  __name__ : string;
  ancestors : list loc;
  __dict__ : gmap string pyval;
  _meta : Options
}.

(** ** The world *)

Record world : Type := {
  DATABASES : gmap string (gmap string pyval);  (* settings.DATABASES *)
  classes : gmap loc pyclass;                   (* the class objects *)
  instances : gmap loc pytype                   (* instances, with their type *)
}.

Inductive exn : Type :=
| ShardedModelInitializationException (msg : string)
| NonExistentDatabaseException (model : string) (database : pyval)
| AttributeError (attr : string).

Inductive outcome (A : Type) : Type :=
| Return (a : A)
| Raise (e : exn).
Arguments Return {A} a.
Arguments Raise {A} e.

(** Computations: a result or an exception, and the world they leave. *)
Definition M (A : Type) : Type := world -> outcome A * world.

Definition bind {A B} (m : M A) (f : A -> M B) : M B := fun w =>
  match m w with
  | (Return a, w') => f a w'
  | (Raise e, w') => (Raise e, w')
  end.

#[global] Instance M_ret : MRet M := fun A a w => (Return a, w).
#[global] Instance M_bind : MBind M := fun A B f m => bind m f.

Notation "x <- m ; k" := (bind m (fun x => k))
  (at level 20, m at level 100, k at level 200, only parsing).

Definition raise {A} (e : exn) : M A := fun w => (Raise e, w).
Definition gets {A} (f : world -> A) : M A := fun w => (Return (f w), w).
Definition when (b : bool) (m : M unit) : M unit := if b then m else mret tt.

(** [try: body except AttributeError as e: handler e]. *)
Definition try_except_AttributeError {A} (body : M A) (handler : exn -> M A) : M A :=
  fun w =>
    match body w with
    | (Raise (AttributeError a), w') => handler (AttributeError a) w'
    | r => r
    end.

(** *** Attribute access on classes *)

Fixpoint mro_lookup (w : world) (mro : list loc) (name : string) : option pyval :=
  match mro with
  | [] => None
  | k :: rest =>
      match classes w !! k ≫= (fun c => __dict__ c !! name) with
      | Some v => Some v
      | None => mro_lookup w rest name
      end
  end.

(** What [cls.name] evaluates to; [None] when the read raises
    [AttributeError]. *)
Definition class_getattr (w : world) (cls : loc) (name : string) : option pyval :=
  match classes w !! cls with
  | None => None
  | Some c =>
      match mro_lookup w (cls :: ancestors c) name with
      | Some PyAbstractManagerDescriptor => None
      | r => r
      end
  end.

Definition getattr (cls : loc) (name : string) : M pyval := fun w =>
  match class_getattr w cls name with
  | Some v => (Return v, w)
  | None => (Raise (AttributeError name), w)
  end.

(** [getattr(cls, name, default)]. *)
Definition getattr_default (cls : loc) (name : string) (default : pyval) : M pyval :=
  try_except_AttributeError (getattr cls name) (fun _ => mret default).

Definition set_class (cls : loc) (c : pyclass) (w : world) : world :=
  {| DATABASES := DATABASES w;
     classes := <[cls := c]> (classes w);
     instances := instances w |}.

Definition set_dict (c : pyclass) (name : string) (v : pyval) : pyclass :=
  {| __name__ := __name__ c;
     ancestors := ancestors c;
     __dict__ := <[name := v]> (__dict__ c);
     _meta := _meta c |}.

(** [setattr(cls, name, v)] writes the class's own namespace. *)
Definition setattr (cls : loc) (name : string) (v : pyval) : M unit := fun w =>
  match classes w !! cls with
  | Some c => (Return tt, set_class cls (set_dict c name v) w)
  | None => (Raise (AttributeError name), w)
  end.

(** [cls._meta] and [cls.__name__]. *)
Definition get_meta (cls : loc) : M Options := fun w =>
  match classes w !! cls with
  | Some c => (Return (_meta c), w)
  | None => (Raise (AttributeError "_meta"), w)
  end.

Definition get_name (cls : loc) : M string := fun w =>
  match classes w !! cls with
  | Some c => (Return (__name__ c), w)
  | None => (Raise (AttributeError "__name__"), w)
  end.

(** *** Instances *)

Definition isinstance_in (w : world) (v : pyval) (t : pytype) : bool :=
  match v with
  | PyObj l =>
      match instances w !! l with
      | Some t' => issubclass t' t
      | None => false
      end
  | _ => false
  end.

(** [type(v) == t]. *)
Definition type_is_in (w : world) (v : pyval) (t : pytype) : bool :=
  match v with
  | PyObj l =>
      match instances w !! l with
      | Some t' => pytype_eqb t' t
      | None => false
      end
  | _ => false
  end.

Definition isinstance (v : pyval) (t : pytype) : M bool :=
  gets (fun w => isinstance_in w v t).
Definition type_is (v : pyval) (t : pytype) : M bool :=
  gets (fun w => type_is_in w v t).

(** [t()]: a new instance of [t], at an unused location. *)
Definition new (t : pytype) : M pyval := fun w =>
  let l := fresh (dom (instances w)) in
  (Return (PyObj l),
   {| DATABASES := DATABASES w;
      classes := classes w;
      instances := <[l := t]> (instances w) |}).

(** *** The framework's [add_to_class] *)

(** The framework records a manager in [cls._meta]: among the abstract
    managers of an abstract model, among the concrete ones otherwise. *)
Definition register_manager (c : pyclass) (manager : pyval) : pyclass :=
  {| __name__ := __name__ c;
     ancestors := ancestors c;
     __dict__ := __dict__ c;
     _meta :=
       {| model_name := model_name (_meta c);
          fields := fields (_meta c);
          pk := pk (_meta c);
          abstract := abstract (_meta c);
          abstract_managers :=
            if abstract (_meta c) then abstract_managers (_meta c) ++ [manager]
            else abstract_managers (_meta c);
          concrete_managers :=
            if abstract (_meta c) then concrete_managers (_meta c)
            else concrete_managers (_meta c) ++ [manager] |} |}.

Definition append_manager (cls : loc) (manager : pyval) : M unit :=
  fun w =>
    match classes w !! cls with
    | Some c => (Return tt, set_class cls (register_manager c manager) w)
    | None => (Raise (AttributeError "_meta"), w)
    end.

(** Django's [cls.add_to_class(name, manager)] for a manager newly created,
    which is [Manager.contribute_to_class].  On a concrete model the name is
    bound to the manager; on an abstract model it is bound to a descriptor
    that raises [AttributeError] when read.  The manager becomes
    [cls._default_manager] when the class has none (a manager just created has
    the greatest creation counter, so it never displaces an existing default
    manager), and it is recorded in [cls._meta].  Swapped models are left
    out. *)
Definition add_to_class (cls : loc) (name : string) (manager : pyval) : M unit :=
  meta <- get_meta cls;
  (if abstract meta then setattr cls name PyAbstractManagerDescriptor
   else setattr cls name manager);;
  default_manager <- getattr_default cls "_default_manager" PyNone;
  when (negb (truthy default_manager)) (setattr cls "_default_manager" manager);;
  append_manager cls manager.

(** ** The decorator *)

(** The exception messages, as the source spells them. *)
Definition msg_both : string :=
  "A model cannot be both sharded and stored on a particular database.".
Definition msg_neither : string :=
  "The model should be either sharded or stored on a database in the `model_config` decorator is used.".
Definition msg_no_sharded_field : string :=
  "All sharded models require a ShardedIDFieldMixin.".
Definition msg_pk : string :=
  "All sharded models require the ShardedAutoIDField to be the primary key. Set primary_key=True on the field.".
Definition msg_get_shard : string :=
  "You must define a get_shard method on the sharded model.".
Definition msg_manager : string :=
  "You must use the default Django model manager or your custom manager must inherit from ``ShardManager``".
Definition msg_abstract_manager (name : string) : string :=
  "Please either do not specify a manager in your abstract base class " ++ name ++
  ", or if you are using a custom manager, your custom manager must inherit from ``ShardManager``".
Definition dquote : string := String (Ascii.ascii_of_nat 34) EmptyString.
Definition msg_get_shard_from_id : string :=
  "You must define a get_shard_from_id method on the sharded model if you define a " ++
  dquote ++ "sharded_by_field" ++ dquote ++ ".".

(** [settings.DATABASES] is keyed by alias strings: only a [str] can be a key
    of it. *)
Definition DATABASES_lookup (dbs : gmap string (gmap string pyval)) (key : pyval)
  : option (gmap string pyval) :=
  match key with
  | PyStr alias => dbs !! alias
  | _ => None
  end.

(** [d.get(key)]. *)
Definition dict_get (d : gmap string pyval) (key : string) : pyval :=
  default PyNone (d !! key).

(** [database not in settings.DATABASES or
     settings.DATABASES[database].get('PRIMARY')]; the subscript is only
    evaluated when the key is present. *)
Definition not_a_primary_database (dbs : gmap string (gmap string pyval)) (database : pyval) : bool :=
  match DATABASES_lookup dbs database with
  | None => true
  | Some entry => truthy (dict_get entry "PRIMARY")
  end.

(** Truth value of a list: non-empty. *)
Definition list_truthy {A} (l : list A) : bool :=
  match l with
  | [] => false
  | _ :: _ => true
  end.

Definition is_sharded_id_field (field : Field) : bool :=
  issubclass (field_type field) ShardedIDFieldMixin.

Section model_config.
(** The arguments of [model_config], captured by the closure [configure];
    an omitted argument is [PyNone]. *)
Variables (shard_group database sharded_by_field : pyval).

(** Lines 16-20. *)
Definition check_arguments : M unit :=
  when (truthy database && truthy shard_group)
    (raise (ShardedModelInitializationException msg_both));;
  when (negb (truthy database) && negb (truthy shard_group))
    (raise (ShardedModelInitializationException msg_neither)).

(** Lines 23-27, the body of [if database:]. *)
Definition store_on_database (cls : loc) : M unit :=
  dbs <- gets DATABASES;
  if not_a_primary_database dbs database then
    meta <- get_meta cls;
    raise (NonExistentDatabaseException (model_name meta) database)
  else setattr cls "django_sharding__database" database.

(** Lines 30-38. *)
Definition validate_sharded_model (cls : loc) : M unit :=
  meta <- get_meta cls;
  let sharded_fields := List.filter is_sharded_id_field (fields meta) in
  when (negb (list_truthy sharded_fields))
    (raise (ShardedModelInitializationException msg_no_sharded_field));;
  meta <- get_meta cls;
  when (negb (list_truthy (List.filter (fun field => Field_eq field (pk meta)) sharded_fields)))
    (raise (ShardedModelInitializationException msg_pk));;
  get_shard <- getattr_default cls "get_shard" PyNone;
  when (negb (callable get_shard))
    (raise (ShardedModelInitializationException msg_get_shard)).

(** Lines 40-41. *)
Definition mark_sharded (cls : loc) : M unit :=
  setattr cls "django_sharding__shard_group" shard_group;;
  setattr cls "django_sharding__is_sharded" (PyBool true).

(** Lines 46-53, the body of [try:]. *)
Definition replace_default_manager (cls : loc) : M unit :=
  objects <- getattr cls "objects";
  is_shard_manager <- isinstance objects ShardManager;
  when (negb is_shard_manager) (
    objects <- getattr cls "objects";
    is_default <- type_is objects Manager;
    if is_default then
      manager <- new ShardManager;
      add_to_class cls "objects" manager;;
      objects <- getattr cls "objects";
      setattr cls "_base_manager" objects
    else raise (ShardedModelInitializationException msg_manager)).

(** Lines 55-65, the body of [except AttributeError as e:]. *)
Definition abstract_model_manager (cls : loc) (e : exn) : M unit :=
  meta <- get_meta cls;
  if abstract meta then
    meta <- get_meta cls;
    if negb (0 <? length (abstract_managers meta))%nat then
      manager <- new ShardManager;
      add_to_class cls "objects" manager
    else
      meta <- get_meta cls;
      shard_managers <- gets (fun w =>
        List.map (fun x => isinstance_in w x ShardManager) (abstract_managers meta));
      if negb (existsb id shard_managers) then
        name <- get_name cls;
        raise (ShardedModelInitializationException (msg_abstract_manager name))
      else mret tt
  else raise e.

(** Lines 45-65. *)
Definition use_shard_manager (cls : loc) : M unit :=
  try_except_AttributeError (replace_default_manager cls) (abstract_model_manager cls).

(** Lines 66-69. *)
Definition record_sharded_by_field (cls : loc) : M unit :=
  setattr cls "django_sharding__sharded_by_field" sharded_by_field;;
  get_shard_from_id <- getattr_default cls "get_shard_from_id" PyNone;
  when (negb (callable get_shard_from_id))
    (raise (ShardedModelInitializationException msg_get_shard_from_id)).

Definition configure (cls : loc) : M loc :=
  check_arguments;;
  when (truthy database) (store_on_database cls);;
  when (truthy shard_group) (
    validate_sharded_model cls;;
    mark_sharded cls;;
    when (truthy sharded_by_field) (
      use_shard_manager cls;;
      record_sharded_by_field cls));;
  mret cls.

(** The run of [configure] up to line 65, for a truthy [sharded_by_field]:
    everything before [django_sharding__sharded_by_field] is set. *)
Definition through_manager_handling (cls : loc) : M unit :=
  check_arguments;;
  when (truthy database) (store_on_database cls);;
  when (truthy shard_group) (
    validate_sharded_model cls;;
    mark_sharded cls;;
    use_shard_manager cls).
End model_config.

(** [model_config(shard_group=None, database=None, sharded_by_field=None)]
    returns the closure [configure]. *)
Definition model_config (shard_group database sharded_by_field : pyval) : loc -> M loc :=
  configure shard_group database sharded_by_field.

(** ** Sample models

    A small project: three database aliases (one of them a replica), and a few
    model classes as Django would have prepared them before the decorator
    runs. *)
Module Sample.
Definition ShardedBigAutoField : pytype :=
  UserClass "ShardedBigAutoField" [ShardedIDFieldMixin; UserClass "BigAutoField" []].
Definition CharField : pytype := UserClass "CharField" [].
Definition CustomManager : pytype := UserClass "CustomManager" [Manager].

Definition id_field : Field :=
  {| field_name := "id"; field_type := ShardedBigAutoField; creation_counter := 1 |}.
Definition name_field : Field :=
  {| field_name := "name"; field_type := CharField; creation_counter := 2 |}.
Definition auto_field : Field :=
  {| field_name := "id"; field_type := UserClass "AutoField" []; creation_counter := 3 |}.

Definition sharded_meta (name : string) (is_abstract : bool) : Options :=
  {| model_name := name; fields := [id_field; name_field]; pk := Some id_field;
     abstract := is_abstract; abstract_managers := []; concrete_managers := [] |}.
Definition plain_meta (name : string) : Options :=
  {| model_name := name; fields := [auto_field; name_field]; pk := Some auto_field;
     abstract := false; abstract_managers := []; concrete_managers := [] |}.

(** Instances: 0 is a default [Manager], 1 a custom manager that does not
    inherit from [ShardManager]. *)
Definition sample_instances : gmap loc pytype :=
  {[ 0 := Manager; 1 := CustomManager ]}.

(** A well-formed sharded model with the default manager. *)
Definition ShardedUser : pyclass :=
  {| __name__ := "ShardedUser"; ancestors := [];
     __dict__ := {[ "objects" := PyObj 0;
                    "get_shard" := PyCallable "ShardedUser.get_shard";
                    "get_shard_from_id" := PyCallable "ShardedUser.get_shard_from_id" ]};
     _meta := sharded_meta "shardeduser" false |}.
(** The same, without [get_shard_from_id]. *)
Definition NoShardFromId : pyclass :=
  {| __name__ := "NoShardFromId"; ancestors := [];
     __dict__ := {[ "objects" := PyObj 0;
                    "get_shard" := PyCallable "NoShardFromId.get_shard" ]};
     _meta := sharded_meta "noshardfromid" false |}.
(** A sharded model with a custom manager and no [get_shard_from_id]. *)
Definition CustomManaged : pyclass :=
  {| __name__ := "CustomManaged"; ancestors := [];
     __dict__ := {[ "objects" := PyObj 1;
                    "get_shard" := PyCallable "CustomManaged.get_shard" ]};
     _meta := sharded_meta "custommanaged" false |}.
(** An ordinary model: an [AutoField] primary key, the default manager. *)
Definition Plain : pyclass :=
  {| __name__ := "Plain"; ancestors := [];
     __dict__ := {[ "objects" := PyObj 0 ]};
     _meta := plain_meta "plain" |}.

Definition sample_world : world :=
  {| DATABASES :=
       {[ "default" := ∅;
          "app_shard_001" := ∅;
          "app_shard_001_replica_001" := {[ "PRIMARY" := PyStr "app_shard_001" ]} ]};
     classes := {[ 0 := ShardedUser; 1 := NoShardFromId; 2 := CustomManaged; 3 := Plain ]};
     instances := sample_instances |}.
End Sample.

(** ** Vocabulary of the properties *)

(** The three checks of lines 30-38, read off the class. *)
Definition has_sharded_id_field (c : pyclass) : bool :=
  existsb is_sharded_id_field (fields (_meta c)).

Definition sharded_id_field_is_pk (c : pyclass) : bool :=
  existsb (fun field => is_sharded_id_field field && Field_eq field (pk (_meta c)))
    (fields (_meta c)).

(** [callable(getattr(cls, name, None))]. *)
Definition has_callable (w : world) (cls : loc) (name : string) : bool :=
  callable (default PyNone (class_getattr w cls name)).

Definition passes_validations (w : world) (cls : loc) (c : pyclass) : bool :=
  has_sharded_id_field c && sharded_id_field_is_pk c && has_callable w cls "get_shard".

(** The world after lines 40-41 on class [c]. *)
Definition marked (shard_group : pyval) (cls : loc) (c : pyclass) (w : world) : world :=
  set_class cls
    (set_dict (set_dict c "django_sharding__shard_group" shard_group)
       "django_sharding__is_sharded" (PyBool true)) w.

(** The attributes the decorator may write. *)
Definition decorator_attributes : list string :=
  [ "django_sharding__database"; "django_sharding__shard_group";
    "django_sharding__is_sharded"; "django_sharding__sharded_by_field";
    "objects"; "_base_manager" ].

(** The attributes written after line 41. *)
Definition manager_attributes : list string :=
  [ "objects"; "_base_manager"; "_default_manager";
    "django_sharding__sharded_by_field" ].

(** The attributes a run may write on the class: the decorator's own and,
    through [add_to_class], the framework's [_default_manager]. *)
Definition class_writes : list string :=
  [ "django_sharding__database"; "django_sharding__shard_group";
    "django_sharding__is_sharded"; "django_sharding__sharded_by_field";
    "objects"; "_base_manager"; "_default_manager" ].

(** [c'] is [c] up to the attributes [names] and the managers recorded in
    [_meta]. *)
Definition class_frame (names : list string) (c c' : pyclass) : Prop :=
  __name__ c' = __name__ c ∧
  ancestors c' = ancestors c ∧
  model_name (_meta c') = model_name (_meta c) ∧
  fields (_meta c') = fields (_meta c) ∧
  pk (_meta c') = pk (_meta c) ∧
  abstract (_meta c') = abstract (_meta c) ∧
  ∀ k, k ∉ names → __dict__ c' !! k = __dict__ c !! k.

(** [w'] is [w] up to the attributes [names] of the class at [cls] and newly
    created instances: the settings, every other class and every instance that
    existed are as they were. *)
Definition frame (names : list string) (cls : loc) (w w' : world) : Prop :=
  DATABASES w' = DATABASES w ∧
  (∀ l, l ≠ cls → classes w' !! l = classes w !! l) ∧
  instances w ⊆ instances w' ∧
  match classes w !! cls with
  | Some c => ∃ c', classes w' !! cls = Some c' ∧ class_frame names c c'
  | None => classes w' !! cls = None
  end.

(** A computation that only writes the attributes [names] of [cls]. *)
Definition writes_only {A} (names : list string) (cls : loc) (m : M A) : Prop :=
  ∀ w, frame names cls w (m w).2.

(** [cls.objects] and [cls._base_manager] have become one new [ShardManager]
    instance. *)
Definition default_manager_replaced (cls : loc) (w w' : world) : Prop :=
  ∃ l c',
    (l ∉ dom (instances w)) ∧
    instances w' !! l = Some ShardManager ∧
    classes w' !! cls = Some c' ∧
    __dict__ c' !! "objects" = Some (PyObj l) ∧
    __dict__ c' !! "_base_manager" = Some (PyObj l).


(** ** Abstract and unprepared sample models *)
Module AbstractSample.
Definition UserShardManager : pytype := UserClass "UserShardManager" [ShardManager].

Definition abstract_meta (name : string) (managers : list pyval) : Options :=
  {| model_name := name; fields := [Sample.id_field; Sample.name_field];
     pk := Some Sample.id_field; abstract := true; abstract_managers := managers;
     concrete_managers := [] |}.

Definition shard_methods (name : string) : gmap string pyval :=
  {[ "get_shard" := PyCallable (name ++ ".get_shard");
     "get_shard_from_id" := PyCallable (name ++ ".get_shard_from_id") ]}.

(** An abstract model that declares no manager. *)
Definition AbstractBare : pyclass :=
  {| __name__ := "AbstractBare"; ancestors := [];
     __dict__ := shard_methods "AbstractBare";
     _meta := abstract_meta "abstractbare" [] |}.
(** An abstract model with a custom manager that is no [ShardManager]. *)
Definition AbstractCustom : pyclass :=
  {| __name__ := "AbstractCustom"; ancestors := [];
     __dict__ := <["objects" := PyAbstractManagerDescriptor]> (shard_methods "AbstractCustom");
     _meta := abstract_meta "abstractcustom" [PyObj 1] |}.
(** An abstract model with two managers, the second one a [ShardManager]
    subclass. *)
Definition AbstractSharded : pyclass :=
  {| __name__ := "AbstractSharded"; ancestors := [];
     __dict__ := <["objects" := PyAbstractManagerDescriptor]> (shard_methods "AbstractSharded");
     _meta := abstract_meta "abstractsharded" [PyObj 1; PyObj 2] |}.
(** A concrete model whose [objects] cannot be read. *)
Definition Unready : pyclass :=
  {| __name__ := "Unready"; ancestors := [];
     __dict__ := shard_methods "Unready";
     _meta := Sample.sharded_meta "unready" false |}.
(** A concrete model whose manager derives from [ShardManager]. *)
Definition ShardManaged : pyclass :=
  {| __name__ := "ShardManaged"; ancestors := [];
     __dict__ := <["objects" := PyObj 2]> (shard_methods "ShardManaged");
     _meta := Sample.sharded_meta "shardmanaged" false |}.

Definition abstract_world : world :=
  {| DATABASES := {[ "default" := ∅ ]};
     classes := {[ 0 := AbstractBare; 1 := AbstractCustom; 2 := AbstractSharded;
                   3 := Unready; 4 := ShardManaged ]};
     instances := {[ 0 := Manager; 1 := Sample.CustomManager; 2 := UserShardManager ]} |}.
End AbstractSample.

(** ** Vocabulary of the further properties *)

(** [any([isinstance(x[2], ShardManager) for x in cls._meta.abstract_managers])]. *)
Definition has_shard_manager (w : world) (c : pyclass) : bool :=
  existsb (fun x => isinstance_in w x ShardManager) (abstract_managers (_meta c)).

(** What the manager handling is after: [cls.objects] reads as a
    [ShardManager] instance or, where it cannot be read, the class is abstract
    and one of its managers is a [ShardManager] instance. *)
Definition shard_manager_in_place (w : world) (cls : loc) : Prop :=
  match class_getattr w cls "objects" with
  | Some objects => isinstance_in w objects ShardManager = true
  | None =>
      ∃ c, classes w !! cls = Some c ∧
           abstract (_meta c) = true ∧
           has_shard_manager w c = true
  end.

(** The class at [cls] is already what [model_config] with these arguments
    asks for: every check of the decorator holds of it and every attribute
    the decorator would set is set. *)
Definition configured (shard_group database sharded_by_field : pyval)
    (cls : loc) (w : world) : Prop :=
  ∃ c,
    classes w !! cls = Some c ∧
    truthy database = negb (truthy shard_group) ∧
    (truthy database = true →
     not_a_primary_database (DATABASES w) database = false ∧
     __dict__ c !! "django_sharding__database" = Some database) ∧
    (truthy shard_group = true →
     passes_validations w cls c = true ∧
     __dict__ c !! "django_sharding__shard_group" = Some shard_group ∧
     __dict__ c !! "django_sharding__is_sharded" = Some (PyBool true)) ∧
    (truthy shard_group = true →
     truthy sharded_by_field = true →
     shard_manager_in_place w cls ∧
     __dict__ c !! "django_sharding__sharded_by_field" = Some sharded_by_field ∧
     has_callable w cls "get_shard_from_id" = true).

(** [getattr(cls, '_default_manager', None)] is truthy. *)
Definition has_default_manager (w : world) (cls : loc) : bool :=
  truthy (default PyNone (class_getattr w cls "_default_manager")).

(** The class [c] after [cls.add_to_class(name, manager)] in the world [w]. *)
Definition contributed (w : world) (cls : loc) (c : pyclass)
    (name : string) (manager : pyval) : pyclass :=
  let bound :=
    set_dict c name (if abstract (_meta c) then PyAbstractManagerDescriptor else manager) in
  register_manager
    (if has_default_manager w cls then bound else set_dict bound "_default_manager" manager)
    manager.

(** The world after [ShardManager()]. *)
Definition allocated (w : world) : world :=
  {| DATABASES := DATABASES w;
     classes := classes w;
     instances := <[fresh (dom (instances w)) := ShardManager]> (instances w) |}.

(** The world after [cls.add_to_class('objects', ShardManager())] on the
    class [c]. *)
Definition registered (cls : loc) (c : pyclass) (w : world) : world :=
  set_class cls
    (contributed (allocated w) cls c "objects" (PyObj (fresh (dom (instances w)))))
    (allocated w).

(** On an abstract class one new [ShardManager] has been created and recorded
    after the managers the class had; it is the default manager if the class
    had none; [objects] cannot be read and [_base_manager] is as it was. *)
Definition shard_manager_registered (cls : loc) (w w' : world) : Prop :=
  ∃ l c c',
    classes w !! cls = Some c ∧
    classes w' !! cls = Some c' ∧
    (l ∉ dom (instances w)) ∧
    instances w' = <[l := ShardManager]> (instances w) ∧
    abstract_managers (_meta c') = (abstract_managers (_meta c) ++ [PyObj l])%list ∧
    class_getattr w' cls "objects" = None ∧
    __dict__ c' !! "_base_manager" = __dict__ c !! "_base_manager" ∧
    __dict__ c' !! "_default_manager" =
      if has_default_manager w cls then __dict__ c !! "_default_manager"
      else Some (PyObj l).

(** The managers the handling of lines 45-65 lets through: a readable
    [objects] that is a [ShardManager] instance or exactly a [Manager]; an
    unreadable one on an abstract class with no manager, or with a
    [ShardManager] among its managers. *)
Definition manager_acceptable (w : world) (cls : loc) (c : pyclass) : bool :=
  match class_getattr w cls "objects" with
  | Some objects =>
      isinstance_in w objects ShardManager || type_is_in w objects Manager
  | None =>
      abstract (_meta c) &&
      (negb (list_truthy (abstract_managers (_meta c))) || has_shard_manager w c)
  end.

(** A computation whose exceptions all satisfy [P]. *)
Definition raises_only {A} (P : exn → Prop) (m : M A) : Prop :=
  ∀ w e, (m w).1 = Raise e → P e.

Definition not_a_database_error (e : exn) : Prop :=
  match e with
  | NonExistentDatabaseException _ _ => False
  | _ => True
  end.

(** A computation that relates the world it leaves to the one it found by
    [R]. *)
Definition keeps {A} (R : world → world → Prop) (m : M A) : Prop :=
  ∀ w, R w (m w).2.

(** Nothing is taken away from a class: the names bound in its own namespace
    stay bound (to the same value or another) and the managers recorded in
    [_meta] stay, in order. *)
Definition class_grows (c c' : pyclass) : Prop :=
  (∀ k, is_Some (__dict__ c !! k) → is_Some (__dict__ c' !! k)) ∧
  abstract_managers (_meta c) `prefix_of` abstract_managers (_meta c') ∧
  concrete_managers (_meta c) `prefix_of` concrete_managers (_meta c').

(** Nothing is taken away from the world: instances stay, the new ones are
    [ShardManager]s, and the class at [cls] grows. *)
Definition grows (cls : loc) (w w' : world) : Prop :=
  instances w ⊆ instances w' ∧
  (∀ l t, instances w' !! l = Some t → instances w !! l = None → t = ShardManager) ∧
  match classes w !! cls with
  | Some c => ∃ c', classes w' !! cls = Some c' ∧ class_grows c c'
  | None => classes w' !! cls = None
  end.

(** ** Running the monad *)

Lemma bind_Return {A B} (m : M A) (f : A -> M B) w a w' :
  m w = (Return a, w') → bind m f w = f a w'.
Proof. unfold bind. by intros ->. Qed.

Lemma bind_Raise {A B} (m : M A) (f : A -> M B) w e w' :
  m w = (Raise e, w') → bind m f w = (Raise e, w').
Proof. unfold bind. by intros ->. Qed.

Lemma seq_Return {B} (m : M unit) (k : M B) w w' :
  m w = (Return tt, w') → (m ;; k) w = k w'.
Proof. intros H. unfold mbind, M_bind. by rewrite (bind_Return _ _ _ _ _ H). Qed.

Lemma seq_Raise {B} (m : M unit) (k : M B) w e w' :
  m w = (Raise e, w') → (m ;; k) w = (Raise e, w').
Proof. intros H. unfold mbind, M_bind. by rewrite (bind_Raise _ _ _ _ _ H). Qed.

Lemma seq_assoc {B} (m k1 : M unit) (k2 : M B) w :
  ((m ;; k1) ;; k2) w = (m ;; (k1 ;; k2)) w.
Proof. unfold mbind, M_bind, bind. by destruct (m w) as [[[]|e] w']. Qed.

Lemma check_arguments_both shard_group database w :
  truthy database = true → truthy shard_group = true →
  check_arguments shard_group database w =
    (Raise (ShardedModelInitializationException msg_both), w).
Proof. intros Hd Hg. unfold check_arguments. by rewrite Hd, Hg. Qed.

Lemma check_arguments_neither shard_group database w :
  truthy database = false → truthy shard_group = false →
  check_arguments shard_group database w =
    (Raise (ShardedModelInitializationException msg_neither), w).
Proof. intros Hd Hg. unfold check_arguments. by rewrite Hd, Hg. Qed.

Lemma check_arguments_one shard_group database w :
  truthy database = negb (truthy shard_group) →
  check_arguments shard_group database w = (Return tt, w).
Proof. intros Hd. unfold check_arguments. rewrite Hd. by destruct (truthy shard_group). Qed.

(** ** The argument checks *)

(** C1: with a truthy [database] and a truthy [shard_group] the decorator
    raises [ShardedModelInitializationException] on every class, and the world
    (so the class, its [django_sharding__*] attributes and its managers) is
    left as it was. *)
Theorem both_arguments_rejected shard_group database sharded_by_field cls w :
  truthy database = true →
  truthy shard_group = true →
  model_config shard_group database sharded_by_field cls w =
    (Raise (ShardedModelInitializationException msg_both), w).
Proof.
  intros Hd Hg. unfold model_config, configure.
  by rewrite (seq_Raise _ _ _ _ _ (check_arguments_both _ _ w Hd Hg)).
Qed.

Lemma both_arguments_rejected_witness :
  model_config (PyStr "app_shard_group") (PyStr "default") PyNone 3 Sample.sample_world =
    (Raise (ShardedModelInitializationException msg_both), Sample.sample_world).
Proof. apply both_arguments_rejected; reflexivity. Defined.

(** C7: with a falsy [database] and a falsy [shard_group] (both omitted, for
    one) the decorator raises [ShardedModelInitializationException] on every
    class and leaves the world as it was. *)
Theorem no_argument_rejected shard_group database sharded_by_field cls w :
  truthy database = false →
  truthy shard_group = false →
  model_config shard_group database sharded_by_field cls w =
    (Raise (ShardedModelInitializationException msg_neither), w).
Proof.
  intros Hd Hg. unfold model_config, configure.
  by rewrite (seq_Raise _ _ _ _ _ (check_arguments_neither _ _ w Hd Hg)).
Qed.

Lemma no_argument_rejected_witness :
  model_config PyNone PyNone PyNone 3 Sample.sample_world =
    (Raise (ShardedModelInitializationException msg_neither), Sample.sample_world).
Proof. apply no_argument_rejected; reflexivity. Defined.

(** C10: the arguments are tested for truthiness, not against [None].  A
    falsy [database] (the empty string, for one) behaves exactly as an omitted
    one, and so does a falsy [shard_group]; in particular a falsy [database]
    with no [shard_group] raises the "either sharded or stored" exception and
    no [NonExistentDatabaseException]. *)
Theorem falsy_argument_as_omitted falsy_database falsy_shard_group :
  truthy falsy_database = false →
  truthy falsy_shard_group = false →
  (∀ shard_group sharded_by_field cls w,
     model_config shard_group falsy_database sharded_by_field cls w =
     model_config shard_group PyNone sharded_by_field cls w) ∧
  (∀ database sharded_by_field cls w,
     model_config falsy_shard_group database sharded_by_field cls w =
     model_config PyNone database sharded_by_field cls w) ∧
  (∀ sharded_by_field cls w,
     model_config PyNone falsy_database sharded_by_field cls w =
     (Raise (ShardedModelInitializationException msg_neither), w)).
Proof.
  intros Hd Hg. split_and!.
  - intros. unfold model_config, configure, check_arguments. by rewrite Hd.
  - intros. unfold model_config, configure, check_arguments. by rewrite Hg.
  - intros. unfold model_config, configure.
    by rewrite (seq_Raise _ _ _ _ _ (check_arguments_neither PyNone _ w Hd eq_refl)).
Qed.

Lemma falsy_argument_as_omitted_witness :
  (∀ shard_group sharded_by_field cls w,
     model_config shard_group (PyStr EmptyString) sharded_by_field cls w =
     model_config shard_group PyNone sharded_by_field cls w) ∧
  (∀ database sharded_by_field cls w,
     model_config (PyStr EmptyString) database sharded_by_field cls w =
     model_config PyNone database sharded_by_field cls w) ∧
  (∀ sharded_by_field cls w,
     model_config PyNone (PyStr EmptyString) sharded_by_field cls w =
     (Raise (ShardedModelInitializationException msg_neither), w)).
Proof. apply falsy_argument_as_omitted; reflexivity. Defined.

(** ** Models stored on one database *)

Lemma setattr_class cls c name v w :
  classes w !! cls = Some c →
  setattr cls name v w = (Return tt, set_class cls (set_dict c name v) w).
Proof. unfold setattr. by intros ->. Qed.

Lemma get_meta_class cls c w :
  classes w !! cls = Some c → get_meta cls w = (Return (_meta c), w).
Proof. unfold get_meta. by intros ->. Qed.

Lemma classes_set_class cls c w : classes (set_class cls c w) !! cls = Some c.
Proof. apply lookup_insert_eq. Qed.

(** C2: for a truthy [database] and a falsy [shard_group], on a model class:
    when [database] is not a key of [settings.DATABASES], or its entry has a
    truthy ['PRIMARY'], [NonExistentDatabaseException] is raised (and nothing
    is written); otherwise [django_sharding__database] is set to [database] on
    the class and the class is returned. *)
Theorem database_placement shard_group database sharded_by_field cls c w :
  truthy database = true →
  truthy shard_group = false →
  classes w !! cls = Some c →
  ((DATABASES_lookup (DATABASES w) database = None ∨
    ∃ entry, DATABASES_lookup (DATABASES w) database = Some entry ∧
             truthy (dict_get entry "PRIMARY") = true) →
   model_config shard_group database sharded_by_field cls w =
     (Raise (NonExistentDatabaseException (model_name (_meta c)) database), w)) ∧
  ((∃ entry, DATABASES_lookup (DATABASES w) database = Some entry ∧
             truthy (dict_get entry "PRIMARY") = false) →
   ∃ w' c',
     model_config shard_group database sharded_by_field cls w = (Return cls, w') ∧
     w' = set_class cls (set_dict c "django_sharding__database" database) w ∧
     classes w' !! cls = Some c' ∧
     __dict__ c' !! "django_sharding__database" = Some database).
Proof.
  intros Hd Hg Hc.
  assert (Hrun : ∀ k : M loc,
    (check_arguments shard_group database ;; k) w = k w).
  { intros k. apply seq_Return, check_arguments_one. by rewrite Hd, Hg. }
  unfold model_config, configure. rewrite Hrun, Hd, Hg. simpl when.
  unfold store_on_database, mbind, M_bind, bind, gets, not_a_primary_database.
  split.
  - intros [Hnone | (entry & Hentry & Hprimary)].
    + rewrite Hnone, (get_meta_class _ _ _ Hc). reflexivity.
    + rewrite Hentry, Hprimary, (get_meta_class _ _ _ Hc). reflexivity.
  - intros (entry & Hentry & Hprimary).
    rewrite Hentry, Hprimary, (setattr_class _ _ _ _ _ Hc).
    eexists _, _. split_and!; [reflexivity | reflexivity | apply classes_set_class |].
    simpl. apply lookup_insert_eq.
Qed.

Lemma database_placement_witness :
  model_config PyNone (PyStr "app_shard_001_replica_001") PyNone 3 Sample.sample_world =
    (Raise (NonExistentDatabaseException "plain" (PyStr "app_shard_001_replica_001")),
     Sample.sample_world) ∧
  ∃ w' c',
    model_config PyNone (PyStr "default") PyNone 3 Sample.sample_world = (Return 3, w') ∧
    w' = set_class 3 (set_dict Sample.Plain "django_sharding__database" (PyStr "default"))
           Sample.sample_world ∧
    classes w' !! 3 = Some c' ∧
    __dict__ c' !! "django_sharding__database" = Some (PyStr "default").
Proof.
  split.
  - apply (database_placement PyNone (PyStr "app_shard_001_replica_001") PyNone 3
             Sample.Plain Sample.sample_world); [reflexivity | reflexivity | reflexivity |].
    right. exists {[ "PRIMARY" := PyStr "app_shard_001" ]}. split; reflexivity.
  - apply (database_placement PyNone (PyStr "default") PyNone 3
             Sample.Plain Sample.sample_world); [reflexivity | reflexivity | reflexivity |].
    exists ∅. split; reflexivity.
Defined.

(** ** What a run may write *)

Lemma class_frame_refl names c : class_frame names c c.
Proof. by repeat split. Qed.

Lemma class_frame_trans names c1 c2 c3 :
  class_frame names c1 c2 → class_frame names c2 c3 → class_frame names c1 c3.
Proof.
  intros (?&?&?&?&?&?&H12) (?&?&?&?&?&?&H23).
  repeat split; try congruence.
  intros k Hk. by rewrite H23, H12.
Qed.

Lemma frame_refl names cls w : frame names cls w w.
Proof.
  repeat split; try done.
  destruct (classes w !! cls) as [c|] eqn:Hc; [|done].
  exists c. split; [done | apply class_frame_refl].
Qed.

Lemma frame_trans names cls w1 w2 w3 :
  frame names cls w1 w2 → frame names cls w2 w3 → frame names cls w1 w3.
Proof.
  intros (Hdb12 & Hoth12 & Hinst12 & Hcls12) (Hdb23 & Hoth23 & Hinst23 & Hcls23).
  split_and!.
  - congruence.
  - intros l Hl. by rewrite Hoth23, Hoth12.
  - by etrans.
  - destruct (classes w1 !! cls) as [c1|].
    + destruct Hcls12 as (c2 & Hc2 & H12). rewrite Hc2 in Hcls23.
      destruct Hcls23 as (c3 & Hc3 & H23).
      exists c3. split; [done | by eapply class_frame_trans].
    + by rewrite Hcls12 in Hcls23.
Qed.

Lemma frame_mono names names' cls w w' :
  (∀ k, k ∈ names → k ∈ names') → frame names cls w w' → frame names' cls w w'.
Proof.
  intros Hsub (Hdb & Hoth & Hinst & Hcls). split_and!; try done.
  destruct (classes w !! cls) as [c|]; [|done].
  destruct Hcls as (c' & Hc' & (?&?&?&?&?&?&Hd)).
  exists c'. split; [done|]. repeat split; try done.
  intros k Hk. apply Hd. intros Hin. by apply Hk, Hsub.
Qed.

Section writes_only.
Context (names : list string) (cls : loc).

Lemma writes_only_mret {A} (a : A) : writes_only names cls (mret a).
Proof. intros w. apply frame_refl. Qed.

Lemma writes_only_raise {A} e : writes_only names cls (@raise A e).
Proof. intros w. apply frame_refl. Qed.

Lemma writes_only_gets {A} (f : world → A) : writes_only names cls (gets f).
Proof. intros w. apply frame_refl. Qed.

Lemma writes_only_bind {A B} (m : M A) (f : A → M B) :
  writes_only names cls m → (∀ a, writes_only names cls (f a)) →
  writes_only names cls (bind m f).
Proof.
  intros Hm Hf w. unfold bind. specialize (Hm w).
  destruct (m w) as [[a|e] w']; simpl in *; [|done].
  eapply frame_trans; [done | apply Hf].
Qed.

Lemma writes_only_seq {B} (m : M unit) (k : M B) :
  writes_only names cls m → writes_only names cls k →
  writes_only names cls (m ;; k).
Proof. intros Hm Hk. apply writes_only_bind; [done | by intros _]. Qed.

Lemma writes_only_when b (m : M unit) :
  writes_only names cls m → writes_only names cls (when b m).
Proof. destruct b; [done | intros _; apply writes_only_mret]. Qed.

Lemma writes_only_try {A} (body : M A) handler :
  writes_only names cls body → (∀ e, writes_only names cls (handler e)) →
  writes_only names cls (try_except_AttributeError body handler).
Proof.
  intros Hbody Hhandler w. unfold try_except_AttributeError. specialize (Hbody w).
  destruct (body w) as [[a|[msg|model database|attr]] w']; simpl in *; try done.
  eapply frame_trans; [done | apply Hhandler].
Qed.

Lemma writes_only_getattr name : writes_only names cls (getattr cls name).
Proof. intros w. unfold getattr. destruct (class_getattr _ _ _); apply frame_refl. Qed.

Lemma writes_only_getattr_default name d :
  writes_only names cls (getattr_default cls name d).
Proof.
  apply writes_only_try; [apply writes_only_getattr | intros _; apply writes_only_mret].
Qed.

Lemma writes_only_get_meta : writes_only names cls (get_meta cls).
Proof. intros w. unfold get_meta. destruct (classes w !! cls); apply frame_refl. Qed.

Lemma writes_only_get_name : writes_only names cls (get_name cls).
Proof. intros w. unfold get_name. destruct (classes w !! cls); apply frame_refl. Qed.

Lemma writes_only_isinstance v t : writes_only names cls (isinstance v t).
Proof. apply writes_only_gets. Qed.

Lemma writes_only_type_is v t : writes_only names cls (type_is v t).
Proof. apply writes_only_gets. Qed.

Lemma writes_only_new t : writes_only names cls (new t).
Proof.
  intros w. unfold new, frame; simpl. split_and!; try done.
  - apply insert_subseteq, not_elem_of_dom, is_fresh.
  - destruct (classes w !! cls) as [c|] eqn:Hc; [|reflexivity].
    exists c. split; [reflexivity | apply class_frame_refl].
Qed.

Lemma writes_only_setattr name v :
  name ∈ names → writes_only names cls (setattr cls name v).
Proof.
  intros Hin w. unfold setattr.
  destruct (classes w !! cls) as [c|] eqn:Hc; simpl; [|apply frame_refl].
  split_and!; try done.
  - intros l Hl. by apply lookup_insert_ne.
  - rewrite Hc. eexists. split; [apply lookup_insert_eq|].
    repeat split. simpl. intros k Hk. apply lookup_insert_ne. by intros ->.
Qed.

Lemma writes_only_append_manager manager :
  writes_only names cls (append_manager cls manager).
Proof.
  intros w. unfold append_manager.
  destruct (classes w !! cls) as [c|] eqn:Hc; simpl; [|apply frame_refl].
  split_and!; try done.
  - intros l Hl. by apply lookup_insert_ne.
  - rewrite Hc. eexists. split; [apply lookup_insert_eq|]. by repeat split.
Qed.

Lemma writes_only_add_to_class name manager :
  name ∈ names → "_default_manager" ∈ names →
  writes_only names cls (add_to_class cls name manager).
Proof.
  intros Hin Hdefault. unfold add_to_class.
  apply writes_only_bind; [apply writes_only_get_meta|]. intros meta.
  apply writes_only_seq; [destruct (abstract meta); by apply writes_only_setattr|].
  apply writes_only_bind; [apply writes_only_getattr_default|]. intros default_manager.
  apply writes_only_seq; [|apply writes_only_append_manager].
  apply writes_only_when. by apply writes_only_setattr.
Qed.
End writes_only.

(** Closes a [writes_only] goal over straight-line monadic code, leaving the
    membership of the written names. *)
Ltac writes_only_step :=
  lazymatch goal with
  | |- writes_only _ _ (mbind _ _) => apply writes_only_seq
  | |- writes_only _ _ (bind _ _) => apply writes_only_bind; [|intros ?]
  | |- writes_only _ _ (when _ _) => apply writes_only_when
  | |- writes_only _ _ (try_except_AttributeError _ _) =>
      apply writes_only_try; [|intros ?]
  | |- writes_only _ _ (mret _) => apply writes_only_mret
  | |- writes_only _ _ (raise _) => apply writes_only_raise
  | |- writes_only _ _ (gets _) => apply writes_only_gets
  | |- writes_only _ _ (getattr_default _ _ _) => apply writes_only_getattr_default
  | |- writes_only _ _ (getattr _ _) => apply writes_only_getattr
  | |- writes_only _ _ (get_meta _) => apply writes_only_get_meta
  | |- writes_only _ _ (get_name _) => apply writes_only_get_name
  | |- writes_only _ _ (isinstance _ _) => apply writes_only_isinstance
  | |- writes_only _ _ (type_is _ _) => apply writes_only_type_is
  | |- writes_only _ _ (new _) => apply writes_only_new
  | |- writes_only _ _ (setattr _ _ _) => apply writes_only_setattr
  | |- writes_only _ _ (add_to_class _ _ _) => apply writes_only_add_to_class
  | |- writes_only _ _ (if ?b then _ else _) => destruct b
  end.

(** Membership and inclusion of explicit lists of attribute names. *)
Ltac names_solve :=
  first
    [ by repeat constructor
    | let k := fresh "k" in
      let Hk := fresh "Hk" in
      intros k Hk; rewrite !elem_of_cons, elem_of_nil in Hk;
      rewrite !elem_of_cons; tauto ].

(** An attribute name is none of an explicit list. *)
Ltac names_apart :=
  rewrite !not_elem_of_cons; split_and!; solve [discriminate | apply not_elem_of_nil].

Ltac writes_only_solve := repeat writes_only_step; try names_solve.

Lemma writes_only_mark_sharded shard_group cls :
  writes_only ["django_sharding__shard_group"; "django_sharding__is_sharded"] cls
    (mark_sharded shard_group cls).
Proof. unfold mark_sharded. writes_only_solve. Qed.

Lemma writes_only_use_shard_manager cls :
  writes_only ["objects"; "_base_manager"; "_default_manager"] cls (use_shard_manager cls).
Proof.
  unfold use_shard_manager, replace_default_manager, abstract_model_manager.
  writes_only_solve.
Qed.

Lemma writes_only_record_sharded_by_field sharded_by_field cls :
  writes_only ["django_sharding__sharded_by_field"] cls
    (record_sharded_by_field sharded_by_field cls).
Proof. unfold record_sharded_by_field. writes_only_solve. Qed.

Lemma writes_only_mono {A} names names' cls (m : M A) :
  (∀ k, k ∈ names → k ∈ names') → writes_only names cls m → writes_only names' cls m.
Proof. intros Hsub Hm w. by eapply frame_mono. Qed.

Lemma writes_only_configure shard_group database sharded_by_field cls :
  writes_only class_writes cls (configure shard_group database sharded_by_field cls).
Proof.
  unfold configure, check_arguments, store_on_database, validate_sharded_model.
  repeat
    lazymatch goal with
    | |- writes_only _ _ (mark_sharded _ _) =>
        eapply writes_only_mono; [|apply writes_only_mark_sharded]
    | |- writes_only _ _ (use_shard_manager _) =>
        eapply writes_only_mono; [|apply writes_only_use_shard_manager]
    | |- writes_only _ _ (record_sharded_by_field _ _) =>
        eapply writes_only_mono; [|apply writes_only_record_sharded_by_field]
    | |- writes_only _ _ _ => writes_only_step
    end;
    unfold class_writes; names_solve.
Qed.

Lemma seq_returns {B} (m : M unit) (k : M B) (b : B) :
  (∀ w r, (k w).1 = Return r → r = b) →
  ∀ w r, ((m ;; k) w).1 = Return r → r = b.
Proof.
  intros Hk w r. unfold mbind, M_bind, bind.
  destruct (m w) as [[[]|e] w']; simpl; [apply Hk | done].
Qed.

(** ** Sharded models: the validations *)

Lemma list_truthy_filter {A} (p : A → bool) (l : list A) :
  list_truthy (List.filter p l) = existsb p l.
Proof.
  induction l as [|x l IH]; simpl; [done|].
  destruct (p x); simpl; [done | apply IH].
Qed.

Lemma filter_filter_andb {A} (p q : A → bool) (l : list A) :
  List.filter q (List.filter p l) = List.filter (fun x => p x && q x) l.
Proof.
  induction l as [|x l IH]; simpl; [done|].
  destruct (p x); simpl; [|apply IH].
  destruct (q x); by rewrite IH.
Qed.

Lemma getattr_default_run cls name d w :
  getattr_default cls name d w = (Return (default d (class_getattr w cls name)), w).
Proof.
  unfold getattr_default, try_except_AttributeError, getattr.
  by destruct (class_getattr w cls name).
Qed.

(** The validations write nothing; they raise on the first check that
    fails. *)
Lemma validate_sharded_model_run cls c w :
  classes w !! cls = Some c →
  validate_sharded_model cls w =
    (if negb (has_sharded_id_field c) then
       Raise (ShardedModelInitializationException msg_no_sharded_field)
     else if negb (sharded_id_field_is_pk c) then
       Raise (ShardedModelInitializationException msg_pk)
     else if negb (has_callable w cls "get_shard") then
       Raise (ShardedModelInitializationException msg_get_shard)
     else Return tt, w).
Proof.
  intros Hc. unfold validate_sharded_model, mbind, M_bind, bind.
  rewrite (get_meta_class _ _ _ Hc), list_truthy_filter.
  fold (has_sharded_id_field c).
  destruct (has_sharded_id_field c); simpl; [|done].
  rewrite (get_meta_class _ _ _ Hc), filter_filter_andb, list_truthy_filter.
  fold (sharded_id_field_is_pk c).
  destruct (sharded_id_field_is_pk c); simpl; [|done].
  rewrite getattr_default_run. fold (has_callable w cls "get_shard").
  by destruct (has_callable w cls "get_shard").
Qed.

Lemma validate_sharded_model_passes cls c w :
  classes w !! cls = Some c →
  passes_validations w cls c = true →
  validate_sharded_model cls w = (Return tt, w).
Proof.
  intros Hc Hpass. rewrite (validate_sharded_model_run _ _ _ Hc).
  unfold passes_validations in Hpass.
  apply andb_true_iff in Hpass as [Hpass ->].
  apply andb_true_iff in Hpass as [-> ->]. done.
Qed.

Lemma validate_sharded_model_fails cls c w :
  classes w !! cls = Some c →
  passes_validations w cls c = false →
  ∃ msg, validate_sharded_model cls w =
           (Raise (ShardedModelInitializationException msg), w).
Proof.
  intros Hc Hfail. rewrite (validate_sharded_model_run _ _ _ Hc).
  unfold passes_validations in Hfail.
  destruct (has_sharded_id_field c); simpl; [|by eexists].
  destruct (sharded_id_field_is_pk c); simpl; [|by eexists].
  simpl in Hfail. rewrite Hfail. by eexists.
Qed.

Lemma set_class_set_class cls c1 c2 w :
  set_class cls c2 (set_class cls c1 w) = set_class cls c2 w.
Proof. unfold set_class; simpl. f_equal. apply insert_insert_eq. Qed.

Lemma mark_sharded_run shard_group cls c w :
  classes w !! cls = Some c →
  mark_sharded shard_group cls w = (Return tt, marked shard_group cls c w).
Proof.
  intros Hc. unfold mark_sharded.
  rewrite (seq_Return _ _ _ _ (setattr_class _ _ _ _ _ Hc)).
  rewrite (setattr_class _ _ _ _ _ (classes_set_class _ _ _)).
  by rewrite set_class_set_class.
Qed.

(** The run of a sharded model up to line 41: with a truthy [shard_group], no
    [database] and the validations passed, what remains is the manager
    handling on the marked class. *)
Lemma configure_validated shard_group database sharded_by_field cls c w :
  truthy shard_group = true →
  truthy database = false →
  classes w !! cls = Some c →
  passes_validations w cls c = true →
  configure shard_group database sharded_by_field cls w =
    ((when (truthy sharded_by_field)
        (use_shard_manager cls;; record_sharded_by_field sharded_by_field cls);;
      mret cls) (marked shard_group cls c w)).
Proof.
  intros Hg Hd Hc Hpass. unfold configure.
  rewrite (seq_Return _ _ w w) by (apply check_arguments_one; by rewrite Hd, Hg).
  rewrite Hd, Hg. simpl when.
  rewrite (seq_Return _ _ w w) by done.
  rewrite seq_assoc.
  rewrite (seq_Return _ _ w w) by (by apply validate_sharded_model_passes with c).
  rewrite seq_assoc.
  by rewrite (seq_Return _ _ _ _ (mark_sharded_run _ _ _ _ Hc)).
Qed.

(** C4: for a truthy [shard_group], on a model class,
    [ShardedModelInitializationException] is raised, and nothing is written,
    unless the class has a field whose type is a subclass of
    [ShardedIDFieldMixin], one such field equals [cls._meta.pk], and
    [get_shard] is callable.  When the three hold, with no [database] and no
    [sharded_by_field], nothing is raised: the class is marked and
    returned. *)
Theorem sharded_model_validation shard_group database sharded_by_field cls c w :
  truthy shard_group = true →
  classes w !! cls = Some c →
  (has_sharded_id_field c && sharded_id_field_is_pk c && has_callable w cls "get_shard"
     = false →
   ∃ msg, model_config shard_group database sharded_by_field cls w =
            (Raise (ShardedModelInitializationException msg), w)) ∧
  (has_sharded_id_field c && sharded_id_field_is_pk c && has_callable w cls "get_shard"
     = true →
   truthy database = false →
   truthy sharded_by_field = false →
   model_config shard_group database sharded_by_field cls w =
     (Return cls, marked shard_group cls c w)).
Proof.
  intros Hg Hc. split.
  - intros Hfail. destruct (truthy database) eqn:Hd.
    + exists msg_both. unfold model_config, configure.
      by rewrite (seq_Raise _ _ _ _ _ (check_arguments_both _ _ w Hd Hg)).
    + destruct (validate_sharded_model_fails _ _ _ Hc Hfail) as [msg Hmsg].
      exists msg. unfold model_config, configure.
      rewrite (seq_Return _ _ w w) by (apply check_arguments_one; by rewrite Hd, Hg).
      rewrite Hd, Hg. simpl when.
      rewrite (seq_Return _ _ w w) by done.
      rewrite seq_assoc. by rewrite (seq_Raise _ _ _ _ _ Hmsg).
  - intros Hpass Hd Hf. unfold model_config.
    rewrite (configure_validated _ _ _ _ _ _ Hg Hd Hc Hpass), Hf. reflexivity.
Qed.

Lemma sharded_model_validation_witness :
  (∃ msg, model_config (PyStr "app_shard_group") PyNone PyNone 3 Sample.sample_world =
            (Raise (ShardedModelInitializationException msg), Sample.sample_world)) ∧
  model_config (PyStr "app_shard_group") PyNone PyNone 0 Sample.sample_world =
    (Return 0, marked (PyStr "app_shard_group") 0 Sample.ShardedUser Sample.sample_world).
Proof.
  split.
  - apply (sharded_model_validation (PyStr "app_shard_group") PyNone PyNone 3
             Sample.Plain Sample.sample_world); reflexivity.
  - apply (sharded_model_validation (PyStr "app_shard_group") PyNone PyNone 0
             Sample.ShardedUser Sample.sample_world); reflexivity.
Defined.

(** ** Sharded models: the attributes *)

Lemma frame_class names cls w w' c :
  frame names cls w w' →
  classes w !! cls = Some c →
  ∃ c', classes w' !! cls = Some c' ∧ class_frame names c c'.
Proof. intros (_ & _ & _ & Hcls) Hc. by rewrite Hc in Hcls. Qed.

Lemma frame_mro_lookup names cls w w' mro k :
  frame names cls w w' → k ∉ names →
  mro_lookup w' mro k = mro_lookup w mro k.
Proof.
  intros (_ & Hoth & _ & Hcls) Hk.
  induction mro as [|a mro IH]; simpl; [done|].
  rewrite IH. destruct (decide (a = cls)) as [->|Hne].
  - destruct (classes w !! cls) as [c|].
    + destruct Hcls as (c' & -> & (_&_&_&_&_&_&Hd)). simpl. by rewrite (Hd _ Hk).
    + by rewrite Hcls.
  - by rewrite (Hoth _ Hne).
Qed.

(** An attribute that is not written reads as before, inherited or not. *)
Lemma frame_class_getattr names cls w w' k :
  frame names cls w w' → k ∉ names →
  class_getattr w' cls k = class_getattr w cls k.
Proof.
  intros Hframe Hk. unfold class_getattr.
  destruct (classes w !! cls) as [c|] eqn:Hc.
  - destruct (frame_class _ _ _ _ _ Hframe Hc) as (c' & -> & (_&Hanc&_)).
    by rewrite Hanc, (frame_mro_lookup _ _ _ _ _ _ Hframe Hk).
  - destruct Hframe as (_ & _ & _ & Hcls). by rewrite Hc in Hcls; rewrite Hcls.
Qed.

Lemma frame_has_callable names cls w w' k :
  frame names cls w w' → k ∉ names →
  has_callable w' cls k = has_callable w cls k.
Proof. intros. unfold has_callable. by erewrite frame_class_getattr. Qed.

Lemma writes_only_sharded_by_field sharded_by_field cls :
  writes_only manager_attributes cls
    (when (truthy sharded_by_field)
       (use_shard_manager cls;; record_sharded_by_field sharded_by_field cls);;
     mret cls).
Proof.
  repeat
    lazymatch goal with
    | |- writes_only _ _ (use_shard_manager _) =>
        eapply writes_only_mono; [|apply writes_only_use_shard_manager]
    | |- writes_only _ _ (record_sharded_by_field _ _) =>
        eapply writes_only_mono; [|apply writes_only_record_sharded_by_field]
    | |- writes_only _ _ _ => writes_only_step
    end;
    unfold manager_attributes; names_solve.
Qed.

Lemma marked_class shard_group cls c w :
  ∃ c', classes (marked shard_group cls c w) !! cls = Some c' ∧
        __dict__ c' !! "django_sharding__shard_group" = Some shard_group ∧
        __dict__ c' !! "django_sharding__is_sharded" = Some (PyBool true) ∧
        abstract (_meta c') = abstract (_meta c).
Proof.
  eexists. split; [apply classes_set_class|]. simpl.
  split_and!; [|apply lookup_insert_eq|done].
  by rewrite lookup_insert_ne, lookup_insert_eq.
Qed.

(** C3: for a truthy [shard_group] and no [database], on a model class that
    passes the validations of lines 30-38, the run leaves
    [django_sharding__shard_group] set to [shard_group] and
    [django_sharding__is_sharded] set to [True] on the class, whatever happens
    after line 41. *)
Theorem shard_group_recorded shard_group database sharded_by_field cls c w :
  truthy shard_group = true →
  truthy database = false →
  classes w !! cls = Some c →
  passes_validations w cls c = true →
  ∃ c',
    classes (model_config shard_group database sharded_by_field cls w).2 !! cls = Some c' ∧
    __dict__ c' !! "django_sharding__shard_group" = Some shard_group ∧
    __dict__ c' !! "django_sharding__is_sharded" = Some (PyBool true).
Proof.
  intros Hg Hd Hc Hpass. unfold model_config.
  rewrite (configure_validated _ _ _ _ _ _ Hg Hd Hc Hpass).
  destruct (marked_class shard_group cls c w) as (cm & Hcm & Hgroup & Hsharded & _).
  destruct (frame_class _ _ _ _ _
              (writes_only_sharded_by_field sharded_by_field cls _) Hcm)
    as (c' & Hc' & (_&_&_&_&_&_&Hdict)).
  exists c'. split; [done|].
  by rewrite !Hdict by (unfold manager_attributes; names_apart).
Qed.

Lemma shard_group_recorded_witness :
  ∃ c',
    classes (model_config (PyStr "app_shard_group") PyNone (PyStr "user_id") 0
               Sample.sample_world).2 !! 0 = Some c' ∧
    __dict__ c' !! "django_sharding__shard_group" = Some (PyStr "app_shard_group") ∧
    __dict__ c' !! "django_sharding__is_sharded" = Some (PyBool true).
Proof.
  apply (shard_group_recorded (PyStr "app_shard_group") PyNone (PyStr "user_id") 0
           Sample.ShardedUser Sample.sample_world); reflexivity.
Defined.

(** ** Sharded models: the manager *)

Lemma getattr_run cls name v w :
  class_getattr w cls name = Some v → getattr cls name w = (Return v, w).
Proof. unfold getattr. by intros ->. Qed.

Lemma class_getattr_own cls c name v w :
  classes w !! cls = Some c →
  __dict__ c !! name = Some v →
  v ≠ PyAbstractManagerDescriptor →
  class_getattr w cls name = Some v.
Proof.
  intros Hc Hv Hne. unfold class_getattr. rewrite Hc. simpl. rewrite Hc. simpl.
  rewrite Hv. by destruct v.
Qed.

Lemma has_default_manager_set_dict cls c name v w :
  classes w !! cls = Some c →
  name ≠ "_default_manager" →
  has_default_manager (set_class cls (set_dict c name v) w) cls = has_default_manager w cls.
Proof.
  intros Hc Hname. unfold has_default_manager.
  pose proof (writes_only_setattr [name] cls name v ltac:(by constructor) w) as Hframe.
  rewrite (setattr_class _ _ _ _ _ Hc) in Hframe.
  rewrite (frame_class_getattr _ _ _ _ _ Hframe); [done|].
  rewrite not_elem_of_cons. split; [done | apply not_elem_of_nil].
Qed.

(** What [add_to_class] leaves, on a class. *)
Lemma add_to_class_run cls c name manager w :
  classes w !! cls = Some c →
  name ≠ "_default_manager" →
  add_to_class cls name manager w =
    (Return tt, set_class cls (contributed w cls c name manager) w).
Proof.
  intros Hc Hname. unfold add_to_class, contributed.
  rewrite (bind_Return _ _ _ _ _ (get_meta_class _ _ _ Hc)).
  set (v := if abstract (_meta c) then PyAbstractManagerDescriptor else manager).
  assert (Hbound :
    (if abstract (_meta c) then setattr cls name PyAbstractManagerDescriptor
     else setattr cls name manager) w =
    (Return tt, set_class cls (set_dict c name v) w)).
  { unfold v. destruct (abstract (_meta c)); by apply setattr_class. }
  rewrite (seq_Return _ _ _ _ Hbound).
  rewrite (bind_Return _ _ _ _ _ (getattr_default_run _ _ _ _)).
  fold (has_default_manager (set_class cls (set_dict c name v) w) cls).
  rewrite (has_default_manager_set_dict _ _ _ _ _ Hc Hname).
  destruct (has_default_manager w cls); simpl when.
  - rewrite (seq_Return _ _ _ (set_class cls (set_dict c name v) w)) by done.
    unfold append_manager. rewrite classes_set_class.
    by rewrite set_class_set_class.
  - rewrite (seq_Return _ _ _ _ (setattr_class _ _ _ _ _ (classes_set_class _ _ _))).
    unfold append_manager. rewrite classes_set_class.
    by rewrite !set_class_set_class.
Qed.

Lemma contributed_name w cls c name manager :
  name ≠ "_default_manager" →
  __dict__ (contributed w cls c name manager) !! name =
    Some (if abstract (_meta c) then PyAbstractManagerDescriptor else manager).
Proof.
  intros Hname. unfold contributed.
  destruct (has_default_manager w cls); simpl.
  - apply lookup_insert_eq.
  - rewrite lookup_insert_ne by done. apply lookup_insert_eq.
Qed.

Lemma contributed_other w cls c name manager k :
  k ≠ name → k ≠ "_default_manager" →
  __dict__ (contributed w cls c name manager) !! k = __dict__ c !! k.
Proof.
  intros Hk Hdefault. unfold contributed.
  destruct (has_default_manager w cls); simpl; by rewrite !lookup_insert_ne.
Qed.

Lemma contributed_default_manager w cls c name manager :
  name ≠ "_default_manager" →
  __dict__ (contributed w cls c name manager) !! "_default_manager" =
    if has_default_manager w cls then __dict__ c !! "_default_manager" else Some manager.
Proof.
  intros Hname. unfold contributed.
  destruct (has_default_manager w cls); simpl.
  - by rewrite lookup_insert_ne.
  - apply lookup_insert_eq.
Qed.

Lemma contributed_abstract w cls c name manager :
  abstract (_meta (contributed w cls c name manager)) = abstract (_meta c).
Proof. unfold contributed. by destruct (has_default_manager w cls). Qed.

Lemma contributed_abstract_managers w cls c name manager :
  abstract (_meta c) = true →
  abstract_managers (_meta (contributed w cls c name manager)) =
    (abstract_managers (_meta c) ++ [manager])%list.
Proof.
  intros Habstract. unfold contributed.
  destruct (has_default_manager w cls); simpl; by rewrite Habstract.
Qed.

(** An instance whose class is exactly [Manager] is no [ShardManager]. *)
Lemma type_is_Manager_not_ShardManager w v :
  type_is_in w v Manager = true → isinstance_in w v ShardManager = false.
Proof.
  unfold type_is_in, isinstance_in.
  destruct v as [| | | | |l|]; try done.
  destruct (instances w !! l) as [[| | |name bs]|]; done.
Qed.

Lemma use_shard_manager_kept cls objects w :
  class_getattr w cls "objects" = Some objects →
  isinstance_in w objects ShardManager = true →
  use_shard_manager cls w = (Return tt, w).
Proof.
  intros Hobjects Hshard.
  unfold use_shard_manager, try_except_AttributeError, replace_default_manager.
  rewrite (bind_Return _ _ _ _ _ (getattr_run _ _ _ _ Hobjects)).
  unfold isinstance, gets, bind. by rewrite Hshard.
Qed.

Lemma use_shard_manager_refused cls objects w :
  class_getattr w cls "objects" = Some objects →
  isinstance_in w objects ShardManager = false →
  type_is_in w objects Manager = false →
  use_shard_manager cls w =
    (Raise (ShardedModelInitializationException msg_manager), w).
Proof.
  intros Hobjects Hshard Hdefault.
  unfold use_shard_manager, try_except_AttributeError, replace_default_manager.
  rewrite (bind_Return _ _ _ _ _ (getattr_run _ _ _ _ Hobjects)).
  unfold isinstance, type_is, gets. unfold bind at 1. rewrite Hshard. simpl when.
  rewrite (bind_Return _ _ _ _ _ (getattr_run _ _ _ _ Hobjects)).
  unfold bind. by rewrite Hdefault.
Qed.

Lemma use_shard_manager_replaced cls c objects w :
  classes w !! cls = Some c →
  abstract (_meta c) = false →
  class_getattr w cls "objects" = Some objects →
  type_is_in w objects Manager = true →
  ∃ w', use_shard_manager cls w = (Return tt, w') ∧ default_manager_replaced cls w w'.
Proof.
  intros Hc Habstract Hobjects Hdefault.
  pose proof (type_is_Manager_not_ShardManager _ _ Hdefault) as Hshard.
  unfold use_shard_manager, try_except_AttributeError, replace_default_manager.
  rewrite (bind_Return _ _ _ _ _ (getattr_run _ _ _ _ Hobjects)).
  unfold isinstance, type_is, gets. unfold bind at 1. rewrite Hshard. simpl when.
  rewrite (bind_Return _ _ _ _ _ (getattr_run _ _ _ _ Hobjects)).
  unfold bind at 1. rewrite Hdefault.
  unfold bind at 1, new.
  set (l := fresh (dom (instances w))).
  set (w1 := {| DATABASES := DATABASES w; classes := classes w;
                instances := <[l := ShardManager]> (instances w) |}).
  assert (Hc1 : classes w1 !! cls = Some c) by done.
  rewrite (seq_Return _ _ _ _
             (add_to_class_run _ _ "objects" (PyObj l) _ Hc1 ltac:(discriminate))).
  set (c2 := contributed w1 cls c "objects" (PyObj l)).
  assert (Hbound : __dict__ c2 !! "objects" = Some (PyObj l)).
  { unfold c2. rewrite contributed_name by discriminate. by rewrite Habstract. }
  assert (Hread : class_getattr (set_class cls c2 w1) cls "objects" = Some (PyObj l)).
  { apply class_getattr_own with c2; [apply classes_set_class | done | done]. }
  rewrite (bind_Return _ _ _ _ _ (getattr_run _ _ _ _ Hread)).
  rewrite (setattr_class _ _ _ _ _ (classes_set_class _ _ _)).
  eexists. split; [reflexivity|].
  exists l, (set_dict c2 "_base_manager" (PyObj l)). split_and!.
  - apply is_fresh.
  - simpl. apply lookup_insert_eq.
  - apply classes_set_class.
  - simpl. by rewrite lookup_insert_ne.
  - simpl. apply lookup_insert_eq.
Qed.

Lemma default_manager_replaced_frame names cls w0 w1 w2 :
  default_manager_replaced cls w0 w1 →
  frame names cls w1 w2 →
  "objects" ∉ names → "_base_manager" ∉ names →
  default_manager_replaced cls w0 w2.
Proof.
  intros (l & c1 & Hfresh & Hl & Hc1 & Hobjects & Hbase) Hframe Ho Hb.
  destruct (frame_class _ _ _ _ _ Hframe Hc1) as (c2 & Hc2 & (_&_&_&_&_&_&Hdict)).
  destruct Hframe as (_ & _ & Hinst & _).
  exists l, c2. split_and!; try done.
  - by eapply lookup_weaken.
  - by rewrite Hdict.
  - by rewrite Hdict.
Qed.

Lemma record_sharded_by_field_run sharded_by_field cls c w :
  classes w !! cls = Some c →
  record_sharded_by_field sharded_by_field cls w =
    (if has_callable w cls "get_shard_from_id" then Return tt
     else Raise (ShardedModelInitializationException msg_get_shard_from_id),
     set_class cls (set_dict c "django_sharding__sharded_by_field" sharded_by_field) w).
Proof.
  intros Hc. unfold record_sharded_by_field.
  pose proof (writes_only_setattr ["django_sharding__sharded_by_field"] cls
                "django_sharding__sharded_by_field" sharded_by_field
                ltac:(names_solve) w) as Hframe.
  rewrite (setattr_class _ _ _ _ _ Hc) in Hframe. simpl in Hframe.
  rewrite (seq_Return _ _ _ _ (setattr_class _ _ _ _ _ Hc)).
  rewrite (bind_Return _ _ _ _ _ (getattr_default_run _ _ _ _)).
  fold (has_callable (set_class cls
          (set_dict c "django_sharding__sharded_by_field" sharded_by_field) w)
          cls "get_shard_from_id").
  rewrite (frame_has_callable _ _ _ _ _ Hframe) by names_apart.
  by destruct (has_callable w cls "get_shard_from_id").
Qed.

Lemma validate_sharded_model_no_class cls w :
  classes w !! cls = None →
  validate_sharded_model cls w = (Raise (AttributeError "_meta"), w).
Proof.
  intros Hc. unfold validate_sharded_model, bind, get_meta. by rewrite Hc.
Qed.

(** Reaching line 66: the arguments, the class and the validations were in
    order, and the manager handling returned. *)
Lemma through_manager_handling_inv shard_group database cls w w1 :
  truthy shard_group = true →
  through_manager_handling shard_group database cls w = (Return tt, w1) →
  truthy database = false ∧
  ∃ c, classes w !! cls = Some c ∧
       passes_validations w cls c = true ∧
       use_shard_manager cls (marked shard_group cls c w) = (Return tt, w1).
Proof.
  intros Hg. unfold through_manager_handling.
  destruct (truthy database) eqn:Hd.
  { by rewrite (seq_Raise _ _ _ _ _ (check_arguments_both _ _ w Hd Hg)). }
  rewrite (seq_Return _ _ w w) by (apply check_arguments_one; by rewrite Hd, Hg).
  rewrite Hg. simpl when. rewrite (seq_Return _ _ w w) by done.
  destruct (classes w !! cls) as [c|] eqn:Hc.
  - destruct (passes_validations w cls c) eqn:Hpass.
    + rewrite (seq_Return _ _ w w) by (by apply validate_sharded_model_passes with c).
      rewrite (seq_Return _ _ _ _ (mark_sharded_run _ _ _ _ Hc)).
      intros Huse. split; [done|]. by exists c.
    + destruct (validate_sharded_model_fails _ _ _ Hc Hpass) as [msg Hmsg].
      by rewrite (seq_Raise _ _ _ _ _ Hmsg).
  - by rewrite (seq_Raise _ _ _ _ _ (validate_sharded_model_no_class _ _ Hc)).
Qed.

Lemma frame_marked shard_group cls c w :
  classes w !! cls = Some c →
  frame ["django_sharding__shard_group"; "django_sharding__is_sharded"] cls w
    (marked shard_group cls c w).
Proof.
  intros Hc. pose proof (writes_only_mark_sharded shard_group cls w) as Hframe.
  by rewrite (mark_sharded_run _ _ _ _ Hc) in Hframe.
Qed.

Lemma frame_use_shard_manager cls w w1 r :
  use_shard_manager cls w = (r, w1) →
  frame ["objects"; "_base_manager"; "_default_manager"] cls w w1.
Proof.
  intros Huse. pose proof (writes_only_use_shard_manager cls w) as Hframe.
  by rewrite Huse in Hframe.
Qed.

(** [through_manager_handling] is the run of [configure] up to line 65: for a
    truthy [shard_group] and a truthy [sharded_by_field], [configure] is that
    prefix followed by lines 66-71. *)
Lemma configure_through_manager_handling shard_group database sharded_by_field cls w :
  truthy shard_group = true →
  truthy sharded_by_field = true →
  configure shard_group database sharded_by_field cls w =
    (through_manager_handling shard_group database cls;;
     record_sharded_by_field sharded_by_field cls;;
     mret cls) w.
Proof.
  intros Hg Hf. unfold configure, through_manager_handling. rewrite Hg, Hf. simpl when.
  unfold mbind, M_bind, bind.
  destruct (check_arguments shard_group database w) as [[[]|e0] w0]; [|done].
  destruct (when (truthy database) (store_on_database database cls) w0)
    as [[[]|e1] w1]; [|done].
  destruct (validate_sharded_model cls w1) as [[[]|e2] w2]; [|done].
  destruct (mark_sharded shard_group cls w2) as [[[]|e3] w3]; [|done].
  by destruct (use_shard_manager cls w3) as [[[]|e4] w4].
Qed.

(** The run from line 66 on, once the manager handling has returned. *)
Lemma configure_past_manager_handling shard_group database sharded_by_field cls w w1 :
  truthy shard_group = true →
  truthy sharded_by_field = true →
  through_manager_handling shard_group database cls w = (Return tt, w1) →
  ∃ c c1,
    classes w !! cls = Some c ∧
    use_shard_manager cls (marked shard_group cls c w) = (Return tt, w1) ∧
    classes w1 !! cls = Some c1 ∧
    __dict__ c1 !! "django_sharding__shard_group" = Some shard_group ∧
    __dict__ c1 !! "django_sharding__is_sharded" = Some (PyBool true) ∧
    has_callable w1 cls "get_shard_from_id" = has_callable w cls "get_shard_from_id" ∧
    configure shard_group database sharded_by_field cls w =
      (if has_callable w1 cls "get_shard_from_id" then Return cls
       else Raise (ShardedModelInitializationException msg_get_shard_from_id),
       set_class cls
         (set_dict c1 "django_sharding__sharded_by_field" sharded_by_field) w1).
Proof.
  intros Hg Hf Hthrough.
  destruct (through_manager_handling_inv _ _ _ _ _ Hg Hthrough)
    as (Hd & c & Hc & Hpass & Huse).
  destruct (marked_class shard_group cls c w) as (cm & Hcm & Hgroup & Hsharded & _).
  pose proof (frame_use_shard_manager _ _ _ _ Huse) as Hframe.
  destruct (frame_class _ _ _ _ _ Hframe Hcm) as (c1 & Hc1 & (_&_&_&_&_&_&Hdict)).
  exists c, c1. split_and!; try done.
  - by rewrite Hdict by names_apart.
  - by rewrite Hdict by names_apart.
  - rewrite (frame_has_callable _ _ _ _ _ Hframe) by names_apart.
    by rewrite (frame_has_callable _ _ _ _ _ (frame_marked shard_group _ _ _ Hc))
      by names_apart.
  - rewrite (configure_validated _ _ _ _ _ _ Hg Hd Hc Hpass), Hf. simpl when.
    rewrite seq_assoc, (seq_Return _ _ _ _ Huse).
    unfold mbind, M_bind, bind.
    rewrite (record_sharded_by_field_run _ _ _ _ Hc1).
    by destruct (has_callable w1 cls "get_shard_from_id").
Qed.

(** C6: for a truthy [shard_group] and a truthy [sharded_by_field], when the
    run gets through the manager handling (lines 16-65 return, leaving [w1]),
    [django_sharding__sharded_by_field] is set to [sharded_by_field] on the
    class, and [ShardedModelInitializationException] is raised exactly when
    [getattr(cls, 'get_shard_from_id', None)] is not callable; that attribute
    reads at line 67 as it did before the run.  Otherwise the class is
    returned. *)
Theorem sharded_by_field_recorded shard_group database sharded_by_field cls w w1 :
  truthy shard_group = true →
  truthy sharded_by_field = true →
  through_manager_handling shard_group database cls w = (Return tt, w1) →
  (∃ c',
     classes (model_config shard_group database sharded_by_field cls w).2 !! cls = Some c' ∧
     __dict__ c' !! "django_sharding__sharded_by_field" = Some sharded_by_field) ∧
  has_callable w1 cls "get_shard_from_id" = has_callable w cls "get_shard_from_id" ∧
  ((∃ msg, (model_config shard_group database sharded_by_field cls w).1 =
             Raise (ShardedModelInitializationException msg)) ↔
   has_callable w1 cls "get_shard_from_id" = false) ∧
  (has_callable w1 cls "get_shard_from_id" = true →
   (model_config shard_group database sharded_by_field cls w).1 = Return cls).
Proof.
  intros Hg Hf Hthrough. unfold model_config.
  destruct (configure_past_manager_handling _ _ sharded_by_field _ _ _ Hg Hf Hthrough)
    as (c & c1 & _ & _ & _ & _ & _ & Hcallable & ->).
  simpl. split_and!.
  - eexists. split; [apply lookup_insert_eq|]. simpl. apply lookup_insert_eq.
  - done.
  - destruct (has_callable w1 cls "get_shard_from_id"); split; try done.
    + by intros [msg ?].
    + intros _. by eexists.
  - by intros ->.
Qed.

Lemma sharded_by_field_recorded_witness :
  (∃ c',
     classes (model_config (PyStr "app_shard_group") PyNone (PyStr "user_id") 1
                Sample.sample_world).2 !! 1 = Some c' ∧
     __dict__ c' !! "django_sharding__sharded_by_field" = Some (PyStr "user_id")) ∧
  has_callable
    (through_manager_handling (PyStr "app_shard_group") PyNone 1 Sample.sample_world).2
    1 "get_shard_from_id" = has_callable Sample.sample_world 1 "get_shard_from_id" ∧
  ((∃ msg, (model_config (PyStr "app_shard_group") PyNone (PyStr "user_id") 1
              Sample.sample_world).1 = Raise (ShardedModelInitializationException msg)) ↔
   has_callable
     (through_manager_handling (PyStr "app_shard_group") PyNone 1 Sample.sample_world).2
     1 "get_shard_from_id" = false) ∧
  (has_callable
     (through_manager_handling (PyStr "app_shard_group") PyNone 1 Sample.sample_world).2
     1 "get_shard_from_id" = true →
   (model_config (PyStr "app_shard_group") PyNone (PyStr "user_id") 1
      Sample.sample_world).1 = Return 1).
Proof.
  apply (sharded_by_field_recorded (PyStr "app_shard_group") PyNone (PyStr "user_id") 1
           Sample.sample_world); [reflexivity | reflexivity |].
  vm_compute. reflexivity.
Defined.

Lemma class_getattr_marked shard_group cls c name w :
  classes w !! cls = Some c →
  name ∉ ["django_sharding__shard_group"; "django_sharding__is_sharded"] →
  class_getattr (marked shard_group cls c w) cls name = class_getattr w cls name.
Proof. intros Hc Hname. by apply frame_class_getattr with (1 := frame_marked _ _ _ _ Hc). Qed.

(** After the validations, the run of a truthy [sharded_by_field] is the
    manager handling on the marked class, then lines 66-69. *)
Lemma configure_sharded_by_field shard_group database sharded_by_field cls c w :
  truthy shard_group = true →
  truthy database = false →
  truthy sharded_by_field = true →
  classes w !! cls = Some c →
  passes_validations w cls c = true →
  configure shard_group database sharded_by_field cls w =
    (use_shard_manager cls;; record_sharded_by_field sharded_by_field cls;; mret cls)
      (marked shard_group cls c w).
Proof.
  intros Hg Hd Hf Hc Hpass.
  rewrite (configure_validated _ _ _ _ _ _ Hg Hd Hc Hpass), Hf. simpl when.
  by rewrite seq_assoc.
Qed.

Lemma configure_replaces_default_manager
    shard_group database sharded_by_field cls c objects w :
  truthy shard_group = true →
  truthy database = false →
  truthy sharded_by_field = true →
  classes w !! cls = Some c →
  passes_validations w cls c = true →
  abstract (_meta c) = false →
  class_getattr w cls "objects" = Some objects →
  type_is_in w objects Manager = true →
  default_manager_replaced cls w
    (configure shard_group database sharded_by_field cls w).2.
Proof.
  intros Hg Hd Hf Hc Hpass Habstract Hobjects Hdefault.
  rewrite (configure_sharded_by_field _ _ _ _ _ _ Hg Hd Hf Hc Hpass).
  destruct (marked_class shard_group cls c w) as (cm & Hcm & _ & _ & Habs).
  rewrite <- Habs in Habstract.
  rewrite <- (class_getattr_marked shard_group _ _ _ _ Hc) in Hobjects by names_apart.
  destruct (use_shard_manager_replaced _ _ _ _ Hcm Habstract Hobjects Hdefault)
    as (w1 & Huse & Hreplaced).
  rewrite (seq_Return _ _ _ _ Huse).
  eapply default_manager_replaced_frame with (w1 := w1)
    (names := ["django_sharding__sharded_by_field"]); [exact Hreplaced | | names_apart..].
  pose proof (writes_only_record_sharded_by_field sharded_by_field cls w1) as Hframe.
  unfold mbind, M_bind, bind.
  by destruct (record_sharded_by_field sharded_by_field cls w1) as [[[]|e] w2].
Qed.

(** ** Errors after the class has been written *)

(** C9, as the code has it: for a truthy [shard_group] and a truthy
    [sharded_by_field], when the run gets through the validations and the
    manager handling (lines 16-65 return) and [get_shard_from_id] is not
    callable, the run raises [ShardedModelInitializationException] and leaves
    [django_sharding__shard_group], [django_sharding__is_sharded] and
    [django_sharding__sharded_by_field] set on the class; on a concrete class
    whose [objects] was exactly a [Manager], the manager has been replaced
    too. *)
Theorem failure_after_mutation shard_group database sharded_by_field cls w w1 :
  truthy shard_group = true →
  truthy sharded_by_field = true →
  through_manager_handling shard_group database cls w = (Return tt, w1) →
  has_callable w cls "get_shard_from_id" = false →
  ∃ w' c',
    model_config shard_group database sharded_by_field cls w =
      (Raise (ShardedModelInitializationException msg_get_shard_from_id), w') ∧
    classes w' !! cls = Some c' ∧
    __dict__ c' !! "django_sharding__shard_group" = Some shard_group ∧
    __dict__ c' !! "django_sharding__is_sharded" = Some (PyBool true) ∧
    __dict__ c' !! "django_sharding__sharded_by_field" = Some sharded_by_field ∧
    ∀ c objects,
      classes w !! cls = Some c →
      abstract (_meta c) = false →
      class_getattr w cls "objects" = Some objects →
      type_is_in w objects Manager = true →
      default_manager_replaced cls w w'.
Proof.
  intros Hg Hf Hthrough Hcallable. unfold model_config.
  destruct (through_manager_handling_inv _ _ _ _ _ Hg Hthrough)
    as (Hd & c0 & Hc0 & Hpass & _).
  pose proof (fun objects =>
                configure_replaces_default_manager shard_group database sharded_by_field
                  cls c0 objects w Hg Hd Hf Hc0 Hpass) as Hreplaced.
  destruct (configure_past_manager_handling _ _ sharded_by_field _ _ _ Hg Hf Hthrough)
    as (c & c1 & Hc & _ & Hc1 & Hgroup & Hsharded & Hsame & Hrun).
  rewrite Hrun in *. rewrite Hsame, Hcallable in *.
  eexists _, _. split_and!; [reflexivity | apply classes_set_class | ..].
  - simpl. by rewrite lookup_insert_ne.
  - simpl. by rewrite lookup_insert_ne.
  - simpl. apply lookup_insert_eq.
  - intros c' objects Hc' Habstract Hobjects Hdefault.
    assert (c' = c0) as -> by congruence.
    by apply (Hreplaced objects).
Qed.

Lemma failure_after_mutation_witness :
  ∃ w' c',
    model_config (PyStr "app_shard_group") PyNone (PyStr "user_id") 1 Sample.sample_world =
      (Raise (ShardedModelInitializationException msg_get_shard_from_id), w') ∧
    classes w' !! 1 = Some c' ∧
    __dict__ c' !! "django_sharding__shard_group" = Some (PyStr "app_shard_group") ∧
    __dict__ c' !! "django_sharding__is_sharded" = Some (PyBool true) ∧
    __dict__ c' !! "django_sharding__sharded_by_field" = Some (PyStr "user_id") ∧
    ∀ c objects,
      classes Sample.sample_world !! 1 = Some c →
      abstract (_meta c) = false →
      class_getattr Sample.sample_world 1 "objects" = Some objects →
      type_is_in Sample.sample_world objects Manager = true →
      default_manager_replaced 1 Sample.sample_world w'.
Proof.
  apply (failure_after_mutation (PyStr "app_shard_group") PyNone (PyStr "user_id") 1
           Sample.sample_world
           (through_manager_handling (PyStr "app_shard_group") PyNone 1
              Sample.sample_world).2); [reflexivity | reflexivity | | reflexivity].
  vm_compute. reflexivity.
Defined.

(** C9 as the spec words it fails on a class that passes the field and
    [get_shard] validations, lacks [get_shard_from_id] and has a custom
    manager: the exception is raised at line 51, before
    [django_sharding__sharded_by_field] is set. *)
Lemma failure_after_mutation_counterexample :
  ¬ (truthy (PyStr "app_shard_group") = true →
     truthy (PyStr "user_id") = true →
     classes Sample.sample_world !! 2 = Some Sample.CustomManaged →
     passes_validations Sample.sample_world 2 Sample.CustomManaged = true →
     has_callable Sample.sample_world 2 "get_shard_from_id" = false →
     ∃ msg c',
       (model_config (PyStr "app_shard_group") PyNone (PyStr "user_id") 2
          Sample.sample_world).1 = Raise (ShardedModelInitializationException msg) ∧
       classes (model_config (PyStr "app_shard_group") PyNone (PyStr "user_id") 2
                  Sample.sample_world).2 !! 2 = Some c' ∧
       __dict__ c' !! "django_sharding__shard_group" = Some (PyStr "app_shard_group") ∧
       __dict__ c' !! "django_sharding__is_sharded" = Some (PyBool true) ∧
       __dict__ c' !! "django_sharding__sharded_by_field" = Some (PyStr "user_id")).
Proof.
  intros Hclaim.
  destruct (Hclaim eq_refl eq_refl eq_refl eq_refl eq_refl)
    as (msg & c' & _ & Hc' & _ & _ & Hfield).
  assert (Hrun : model_config (PyStr "app_shard_group") PyNone (PyStr "user_id") 2
                   Sample.sample_world =
                 (Raise (ShardedModelInitializationException msg_manager),
                  marked (PyStr "app_shard_group") 2 Sample.CustomManaged
                    Sample.sample_world)).
  { vm_compute. reflexivity. }
  rewrite Hrun in Hc'. vm_compute in Hc'. injection Hc' as <-.
  vm_compute in Hfield. discriminate.
Qed.

(** ** The handler of unreadable managers *)

Lemma existsb_id_map {A} (f : A → bool) (l : list A) :
  existsb id (List.map f l) = existsb f l.
Proof. induction l as [|x l IH]; simpl; [done | by rewrite IH]. Qed.

Lemma class_getattr_class w cls name v :
  class_getattr w cls name = Some v → ∃ c, classes w !! cls = Some c.
Proof. unfold class_getattr. destruct (classes w !! cls) as [c|]; [by exists c | done]. Qed.

Lemma class_getattr_own_descriptor cls c name w :
  classes w !! cls = Some c →
  __dict__ c !! name = Some PyAbstractManagerDescriptor →
  class_getattr w cls name = None.
Proof.
  intros Hc Hv. unfold class_getattr. rewrite Hc. simpl. rewrite Hc. simpl. by rewrite Hv.
Qed.

Lemma getattr_unreadable cls name w :
  class_getattr w cls name = None →
  getattr cls name w = (Raise (AttributeError name), w).
Proof. unfold getattr. by intros ->. Qed.

Lemma get_name_class cls c w :
  classes w !! cls = Some c → get_name cls w = (Return (__name__ c), w).
Proof. unfold get_name. by intros ->. Qed.

Lemma abstract_model_manager_concrete cls c e w :
  classes w !! cls = Some c →
  abstract (_meta c) = false →
  abstract_model_manager cls e w = (Raise e, w).
Proof.
  intros Hc Habstract. unfold abstract_model_manager.
  by rewrite (bind_Return _ _ _ _ _ (get_meta_class _ _ _ Hc)), Habstract.
Qed.

Lemma abstract_model_manager_registers cls c e w :
  classes w !! cls = Some c →
  abstract (_meta c) = true →
  abstract_managers (_meta c) = [] →
  abstract_model_manager cls e w = (Return tt, registered cls c w).
Proof.
  intros Hc Habstract Hnone. unfold abstract_model_manager.
  rewrite (bind_Return _ _ _ _ _ (get_meta_class _ _ _ Hc)), Habstract.
  rewrite (bind_Return _ _ _ _ _ (get_meta_class _ _ _ Hc)), Hnone. simpl.
  unfold bind at 1, new.
  exact (add_to_class_run cls c "objects" _ (allocated w) Hc ltac:(discriminate)).
Qed.

Lemma abstract_model_manager_checks cls c e w :
  classes w !! cls = Some c →
  abstract (_meta c) = true →
  abstract_managers (_meta c) ≠ [] →
  abstract_model_manager cls e w =
    (if has_shard_manager w c then Return tt
     else Raise (ShardedModelInitializationException (msg_abstract_manager (__name__ c))),
     w).
Proof.
  intros Hc Habstract Hsome. unfold abstract_model_manager.
  rewrite (bind_Return _ _ _ _ _ (get_meta_class _ _ _ Hc)), Habstract.
  rewrite (bind_Return _ _ _ _ _ (get_meta_class _ _ _ Hc)).
  destruct (abstract_managers (_meta c)) as [|x managers] eqn:Hmanagers; [done|].
  change (negb (0 <? length (x :: managers))%nat) with false. cbv iota.
  rewrite (bind_Return _ _ _ _ _ (get_meta_class _ _ _ Hc)).
  unfold gets. unfold bind at 1. rewrite existsb_id_map, Hmanagers.
  unfold has_shard_manager. rewrite Hmanagers.
  destruct (existsb _ (x :: managers)); simpl; [done|].
  by rewrite (bind_Return _ _ _ _ _ (get_name_class _ _ _ Hc)).
Qed.

Lemma has_shard_manager_nonempty w c :
  has_shard_manager w c = true → abstract_managers (_meta c) ≠ [].
Proof. unfold has_shard_manager. by destruct (abstract_managers (_meta c)). Qed.

(** Line 46 raises: the handler decides. *)
Lemma use_shard_manager_unreadable cls w :
  class_getattr w cls "objects" = None →
  use_shard_manager cls w = abstract_model_manager cls (AttributeError "objects") w.
Proof.
  intros Hobjects.
  unfold use_shard_manager, try_except_AttributeError, replace_default_manager.
  by rewrite (bind_Raise _ _ _ _ _ (getattr_unreadable _ _ _ Hobjects)).
Qed.

Lemma registered_class cls c w :
  classes (registered cls c w) !! cls =
    Some (contributed (allocated w) cls c "objects" (PyObj (fresh (dom (instances w))))).
Proof. apply classes_set_class. Qed.

Lemma registered_unreadable cls c w :
  abstract (_meta c) = true →
  class_getattr (registered cls c w) cls "objects" = None.
Proof.
  intros Habstract.
  eapply class_getattr_own_descriptor; [apply registered_class|].
  rewrite contributed_name by discriminate. by rewrite Habstract.
Qed.

Lemma registered_instance cls c w :
  isinstance_in (registered cls c w) (PyObj (fresh (dom (instances w)))) ShardManager = true.
Proof. unfold isinstance_in, registered, allocated. simpl. by rewrite lookup_insert_eq. Qed.

Lemma registered_in_place cls c w :
  abstract (_meta c) = true → shard_manager_in_place (registered cls c w) cls.
Proof.
  intros Habstract. unfold shard_manager_in_place.
  rewrite (registered_unreadable _ _ _ Habstract).
  eexists. split; [apply registered_class|].
  split; [by rewrite contributed_abstract|].
  unfold has_shard_manager. rewrite (contributed_abstract_managers _ _ _ _ _ Habstract).
  rewrite existsb_app. cbn [existsb].
  rewrite (registered_instance cls c w). by rewrite orb_true_r.
Qed.

(** Lines 46-49 on an abstract class whose [objects] reads as a default
    [Manager]: the new manager is registered, line 49 cannot read it back, and
    the handler accepts the class. *)
Lemma use_shard_manager_abstract_default cls c objects w :
  classes w !! cls = Some c →
  abstract (_meta c) = true →
  class_getattr w cls "objects" = Some objects →
  type_is_in w objects Manager = true →
  use_shard_manager cls w = (Return tt, registered cls c w).
Proof.
  intros Hc Habstract Hobjects Hdefault.
  pose proof (type_is_Manager_not_ShardManager _ _ Hdefault) as Hshard.
  unfold use_shard_manager, try_except_AttributeError, replace_default_manager.
  rewrite (bind_Return _ _ _ _ _ (getattr_run _ _ _ _ Hobjects)).
  unfold isinstance, type_is, gets. unfold bind at 1. rewrite Hshard. simpl when.
  rewrite (bind_Return _ _ _ _ _ (getattr_run _ _ _ _ Hobjects)).
  unfold bind at 1. rewrite Hdefault.
  unfold bind at 1, new.
  assert (Hadd : add_to_class cls "objects" (PyObj (fresh (dom (instances w))))
                   (allocated w) = (Return tt, registered cls c w))
    by exact (add_to_class_run cls c "objects" _ (allocated w) Hc ltac:(discriminate)).
  change {| DATABASES := DATABASES w; classes := classes w;
            instances := <[fresh (dom (instances w)) := ShardManager]> (instances w) |}
    with (allocated w).
  rewrite (seq_Return _ _ _ _ Hadd).
  rewrite (bind_Raise _ _ _ _ _
             (getattr_unreadable _ _ _ (registered_unreadable cls c w Habstract))).
  pose proof (registered_in_place cls c w Habstract) as Hplace.
  unfold shard_manager_in_place in Hplace.
  rewrite (registered_unreadable _ _ _ Habstract) in Hplace.
  destruct Hplace as (c' & Hc' & Habstract' & Hhas).
  rewrite (abstract_model_manager_checks cls c' _ _ Hc' Habstract')
    by (by apply has_shard_manager_nonempty with (registered cls c w)).
  by rewrite Hhas.
Qed.

Lemma abstract_model_manager_no_class cls e w :
  classes w !! cls = None →
  abstract_model_manager cls e w = (Raise (AttributeError "_meta"), w).
Proof. intros Hc. unfold abstract_model_manager, bind, get_meta. by rewrite Hc. Qed.

Lemma default_manager_replaced_in_place cls w w' :
  default_manager_replaced cls w w' → shard_manager_in_place w' cls.
Proof.
  intros (l & c' & _ & Hl & Hc' & Hobjects & _). unfold shard_manager_in_place.
  rewrite (class_getattr_own _ _ _ _ _ Hc' Hobjects) by done.
  unfold isinstance_in. by rewrite Hl.
Qed.

(** When the manager handling returns, a [ShardManager] is in place. *)
Lemma use_shard_manager_establishes cls w w1 :
  use_shard_manager cls w = (Return tt, w1) → shard_manager_in_place w1 cls.
Proof.
  intros Huse.
  destruct (class_getattr w cls "objects") as [objects|] eqn:Hobjects.
  - destruct (class_getattr_class _ _ _ _ Hobjects) as [c Hc].
    destruct (isinstance_in w objects ShardManager) eqn:Hshard.
    { rewrite (use_shard_manager_kept _ _ _ Hobjects Hshard) in Huse.
      injection Huse as <-. unfold shard_manager_in_place. by rewrite Hobjects. }
    destruct (type_is_in w objects Manager) eqn:Hdefault.
    + destruct (abstract (_meta c)) eqn:Habstract.
      * rewrite (use_shard_manager_abstract_default _ _ _ _ Hc Habstract Hobjects Hdefault)
          in Huse.
        injection Huse as <-. by apply registered_in_place.
      * destruct (use_shard_manager_replaced _ _ _ _ Hc Habstract Hobjects Hdefault)
          as (w' & Hrun & Hreplaced).
        rewrite Hrun in Huse. injection Huse as <-.
        by eapply default_manager_replaced_in_place.
    + by rewrite (use_shard_manager_refused _ _ _ Hobjects Hshard Hdefault) in Huse.
  - rewrite (use_shard_manager_unreadable _ _ Hobjects) in Huse.
    destruct (classes w !! cls) as [c|] eqn:Hc.
    + destruct (abstract (_meta c)) eqn:Habstract.
      * destruct (abstract_managers (_meta c)) as [|x managers] eqn:Hmanagers.
        -- rewrite (abstract_model_manager_registers _ _ _ _ Hc Habstract Hmanagers) in Huse.
           injection Huse as <-. by apply registered_in_place.
        -- rewrite (abstract_model_manager_checks _ c) in Huse by (done || by rewrite Hmanagers).
           destruct (has_shard_manager w c) eqn:Hhas; [|done].
           injection Huse as <-. unfold shard_manager_in_place. rewrite Hobjects.
           by exists c.
      * by rewrite (abstract_model_manager_concrete _ _ _ _ Hc Habstract) in Huse.
    + by rewrite (abstract_model_manager_no_class _ _ _ Hc) in Huse.
Qed.

(** With a [ShardManager] in place, the manager handling returns and writes
    nothing. *)
Lemma use_shard_manager_in_place cls w :
  shard_manager_in_place w cls → use_shard_manager cls w = (Return tt, w).
Proof.
  unfold shard_manager_in_place.
  destruct (class_getattr w cls "objects") as [objects|] eqn:Hobjects.
  - intros Hshard. by apply use_shard_manager_kept with objects.
  - intros (c & Hc & Habstract & Hhas).
    rewrite (use_shard_manager_unreadable _ _ Hobjects).
    rewrite (abstract_model_manager_checks _ c)
      by (done || by apply has_shard_manager_nonempty with w).
    by rewrite Hhas.
Qed.

Lemma set_dict_same c name v :
  __dict__ c !! name = Some v → set_dict c name v = c.
Proof. intros Hv. destruct c. unfold set_dict. simpl in *. f_equal. by apply insert_id. Qed.

Lemma set_class_same cls c w :
  classes w !! cls = Some c → set_class cls c w = w.
Proof. intros Hc. destruct w. unfold set_class. simpl in *. f_equal. by apply insert_id. Qed.

(** Setting an attribute to the value it has writes nothing. *)
Lemma setattr_same cls c name v w :
  classes w !! cls = Some c →
  __dict__ c !! name = Some v →
  setattr cls name v w = (Return tt, w).
Proof.
  intros Hc Hv. rewrite (setattr_class _ _ _ _ _ Hc).
  by rewrite (set_dict_same _ _ _ Hv), (set_class_same _ _ _ Hc).
Qed.

Lemma marked_same shard_group cls c w :
  classes w !! cls = Some c →
  __dict__ c !! "django_sharding__shard_group" = Some shard_group →
  __dict__ c !! "django_sharding__is_sharded" = Some (PyBool true) →
  marked shard_group cls c w = w.
Proof.
  intros Hc Hgroup Hsharded. unfold marked.
  by rewrite (set_dict_same _ _ _ Hgroup), (set_dict_same _ _ _ Hsharded),
    (set_class_same _ _ _ Hc).
Qed.

(** ** Models whose manager cannot be read *)

Lemma configure_unreadable shard_group database sharded_by_field cls c w :
  truthy shard_group = true →
  truthy database = false →
  truthy sharded_by_field = true →
  classes w !! cls = Some c →
  passes_validations w cls c = true →
  class_getattr w cls "objects" = None →
  configure shard_group database sharded_by_field cls w =
    (abstract_model_manager cls (AttributeError "objects");;
     record_sharded_by_field sharded_by_field cls;;
     mret cls) (marked shard_group cls c w).
Proof.
  intros Hg Hd Hf Hc Hpass Hobjects.
  rewrite (configure_sharded_by_field _ _ _ _ _ _ Hg Hd Hf Hc Hpass).
  rewrite <- (class_getattr_marked shard_group _ _ _ _ Hc) in Hobjects by names_apart.
  unfold mbind, M_bind, bind.
  by rewrite (use_shard_manager_unreadable _ _ Hobjects).
Qed.

Lemma writes_only_abstract_model_manager cls e :
  writes_only ["objects"; "_base_manager"; "_default_manager"] cls
    (abstract_model_manager cls e).
Proof. unfold abstract_model_manager. writes_only_solve. Qed.

(** X5: Lines 63-65: on a concrete model that passes the validations and whose
    [objects] cannot be read, the [AttributeError] of line 46 is passed
    through; the class keeps the marks of lines 40-41 and nothing else is
    written. *)
Theorem unreadable_manager_error_passes_through
    shard_group database sharded_by_field cls c w :
  truthy shard_group = true →
  truthy database = false →
  truthy sharded_by_field = true →
  classes w !! cls = Some c →
  passes_validations w cls c = true →
  abstract (_meta c) = false →
  class_getattr w cls "objects" = None →
  model_config shard_group database sharded_by_field cls w =
    (Raise (AttributeError "objects"), marked shard_group cls c w).
Proof.
  intros Hg Hd Hf Hc Hpass Habstract Hobjects. unfold model_config.
  rewrite (configure_unreadable _ _ _ _ _ _ Hg Hd Hf Hc Hpass Hobjects).
  apply seq_Raise.
  by eapply abstract_model_manager_concrete; [apply classes_set_class|].
Qed.

Lemma unreadable_manager_error_passes_through_witness :
  model_config (PyStr "app_shard_group") PyNone (PyStr "user_id") 3
    AbstractSample.abstract_world =
    (Raise (AttributeError "objects"),
     marked (PyStr "app_shard_group") 3 AbstractSample.Unready
       AbstractSample.abstract_world).
Proof.
  apply (unreadable_manager_error_passes_through (PyStr "app_shard_group") PyNone
           (PyStr "user_id") 3 AbstractSample.Unready AbstractSample.abstract_world);
    reflexivity.
Defined.

(** The run of a truthy [sharded_by_field] on an abstract class for which the
    manager handling registers a new [ShardManager]. *)
Lemma configure_registers shard_group database sharded_by_field cls c w :
  truthy shard_group = true →
  truthy database = false →
  truthy sharded_by_field = true →
  classes w !! cls = Some c →
  passes_validations w cls c = true →
  abstract (_meta c) = true →
  use_shard_manager cls (marked shard_group cls c w) =
    (Return tt,
     registered cls
       (set_dict (set_dict c "django_sharding__shard_group" shard_group)
          "django_sharding__is_sharded" (PyBool true))
       (marked shard_group cls c w)) →
  shard_manager_registered cls w
    (configure shard_group database sharded_by_field cls w).2 ∧
  (configure shard_group database sharded_by_field cls w).1 =
    if has_callable w cls "get_shard_from_id" then Return cls
    else Raise (ShardedModelInitializationException msg_get_shard_from_id).
Proof.
  intros Hg Hd Hf Hc Hpass Habstract Huse.
  rewrite (configure_sharded_by_field _ _ _ _ _ _ Hg Hd Hf Hc Hpass).
  set (wm := marked shard_group cls c w) in *.
  set (cm := set_dict (set_dict c "django_sharding__shard_group" shard_group)
               "django_sharding__is_sharded" (PyBool true)) in *.
  assert (Hcallable : has_callable (registered cls cm wm) cls "get_shard_from_id" =
                      has_callable w cls "get_shard_from_id").
  { rewrite (frame_has_callable _ _ _ _ _ (frame_use_shard_manager _ _ _ _ Huse))
      by names_apart.
    by rewrite (frame_has_callable _ _ _ _ _ (frame_marked shard_group _ _ _ Hc))
      by names_apart. }
  assert (Hdefault : has_default_manager (allocated wm) cls = has_default_manager w cls).
  { unfold has_default_manager.
    pose proof (writes_only_new [] cls ShardManager wm : frame [] cls wm (allocated wm))
      as Hnew.
    rewrite (frame_class_getattr _ _ _ _ _ Hnew) by apply not_elem_of_nil.
    unfold wm. by rewrite (class_getattr_marked _ _ _ _ _ Hc) by names_apart. }
  assert (Habs : abstract (_meta cm) = true) by exact Habstract.
  rewrite (seq_Return _ _ _ _ Huse).
  unfold mbind, M_bind, bind.
  rewrite (record_sharded_by_field_run _ _ _ _ (registered_class _ _ _)), Hcallable.
  split; [|by destruct (has_callable w cls "get_shard_from_id")].
  exists (fresh (dom (instances w))), c. eexists.
  split_and!.
  - done.
  - destruct (has_callable w cls "get_shard_from_id"); apply classes_set_class.
  - apply is_fresh.
  - by destruct (has_callable w cls "get_shard_from_id").
  - cbn [_meta set_dict]. by rewrite (contributed_abstract_managers _ _ cm _ _ Habs).
  - destruct (has_callable w cls "get_shard_from_id");
      (eapply class_getattr_own_descriptor; [apply classes_set_class|]);
      cbn [__dict__ set_dict];
      (rewrite lookup_insert_ne by done);
      (rewrite contributed_name by done); by rewrite Habs.
  - cbn [__dict__ set_dict]. rewrite lookup_insert_ne by done.
    rewrite contributed_other by done. unfold cm. simpl.
    by rewrite !lookup_insert_ne.
  - cbn [__dict__ set_dict]. rewrite lookup_insert_ne by done.
    rewrite contributed_default_manager by done. rewrite Hdefault.
    destruct (has_default_manager w cls); [|done].
    unfold cm. simpl. by rewrite !lookup_insert_ne.
Qed.

(** X6: Lines 55-57: on an abstract model that passes the validations, declares no
    manager and whose [objects] cannot be read, one new [ShardManager] is
    created and recorded as the only entry of [_meta.abstract_managers] (and
    as [_default_manager] when the class has none); [objects] still cannot be
    read, [_base_manager] is not written, and the run goes on to lines
    66-69. *)
Theorem abstract_model_gets_shard_manager
    shard_group database sharded_by_field cls c w :
  truthy shard_group = true →
  truthy database = false →
  truthy sharded_by_field = true →
  classes w !! cls = Some c →
  passes_validations w cls c = true →
  abstract (_meta c) = true →
  abstract_managers (_meta c) = [] →
  class_getattr w cls "objects" = None →
  shard_manager_registered cls w
    (model_config shard_group database sharded_by_field cls w).2 ∧
  (model_config shard_group database sharded_by_field cls w).1 =
    if has_callable w cls "get_shard_from_id" then Return cls
    else Raise (ShardedModelInitializationException msg_get_shard_from_id).
Proof.
  intros Hg Hd Hf Hc Hpass Habstract Hmanagers Hobjects. unfold model_config.
  apply (configure_registers _ _ _ _ c); try done.
  rewrite <- (class_getattr_marked shard_group _ _ _ _ Hc) in Hobjects by names_apart.
  rewrite (use_shard_manager_unreadable _ _ Hobjects).
  by apply abstract_model_manager_registers; [apply classes_set_class | |].
Qed.

Lemma abstract_model_gets_shard_manager_witness :
  shard_manager_registered 0 AbstractSample.abstract_world
    (model_config (PyStr "app_shard_group") PyNone (PyStr "user_id") 0
       AbstractSample.abstract_world).2 ∧
  (model_config (PyStr "app_shard_group") PyNone (PyStr "user_id") 0
     AbstractSample.abstract_world).1 =
    if has_callable AbstractSample.abstract_world 0 "get_shard_from_id" then Return 0
    else Raise (ShardedModelInitializationException msg_get_shard_from_id).
Proof.
  apply (abstract_model_gets_shard_manager (PyStr "app_shard_group") PyNone
           (PyStr "user_id") 0 AbstractSample.AbstractBare AbstractSample.abstract_world);
    reflexivity.
Defined.



(** ** Decorating a class that is already configured *)

Lemma frame_passes_validations names cls w w' c c' :
  frame names cls w w' →
  "get_shard" ∉ names →
  classes w !! cls = Some c →
  classes w' !! cls = Some c' →
  passes_validations w' cls c' = passes_validations w cls c.
Proof.
  intros Hframe Hname Hc Hc'.
  destruct (frame_class _ _ _ _ _ Hframe Hc) as (c'' & Hc'' & (_&_&_&Hfields&Hpk&_)).
  assert (c'' = c') as -> by congruence.
  unfold passes_validations, has_sharded_id_field, sharded_id_field_is_pk.
  by rewrite Hfields, Hpk, (frame_has_callable _ _ _ _ _ Hframe Hname).
Qed.

Lemma frame_setattr cls c name v w :
  classes w !! cls = Some c →
  frame [name] cls w (set_class cls (set_dict c name v) w).
Proof.
  intros Hc.
  pose proof (writes_only_setattr [name] cls name v ltac:(by constructor) w) as Hframe.
  by rewrite (setattr_class _ _ _ _ _ Hc) in Hframe.
Qed.

Lemma shard_manager_in_place_set_dict cls c name v w :
  classes w !! cls = Some c →
  name ≠ "objects" →
  shard_manager_in_place w cls →
  shard_manager_in_place (set_class cls (set_dict c name v) w) cls.
Proof.
  intros Hc Hname. unfold shard_manager_in_place.
  rewrite (frame_class_getattr _ _ _ _ _ (frame_setattr _ _ name v _ Hc))
    by (rewrite not_elem_of_cons; split; [done | apply not_elem_of_nil]).
  destruct (class_getattr w cls "objects") as [objects|]; [done|].
  intros (c0 & Hc0 & Habstract & Hhas).
  assert (c0 = c) as -> by congruence.
  eexists. split; [apply classes_set_class|]. by split.
Qed.

Lemma configure_validation_raises shard_group database sharded_by_field cls e w :
  truthy shard_group = true →
  truthy database = false →
  validate_sharded_model cls w = (Raise e, w) →
  configure shard_group database sharded_by_field cls w = (Raise e, w).
Proof.
  intros Hg Hd Hraise. unfold configure.
  rewrite (seq_Return _ _ w w) by (apply check_arguments_one; by rewrite Hd, Hg).
  rewrite Hd, Hg. simpl when.
  rewrite (seq_Return _ _ w w) by done.
  rewrite seq_assoc. by rewrite (seq_Raise _ _ _ _ _ Hraise).
Qed.

Lemma configure_database_run shard_group database sharded_by_field cls c w :
  truthy database = true →
  truthy shard_group = false →
  classes w !! cls = Some c →
  configure shard_group database sharded_by_field cls w =
    if not_a_primary_database (DATABASES w) database then
      (Raise (NonExistentDatabaseException (model_name (_meta c)) database), w)
    else
      (Return cls, set_class cls (set_dict c "django_sharding__database" database) w).
Proof.
  intros Hd Hg Hc. unfold configure.
  rewrite (seq_Return _ _ w w) by (apply check_arguments_one; by rewrite Hd, Hg).
  rewrite Hd, Hg. simpl when.
  unfold store_on_database, mbind, M_bind, bind, gets.
  destruct (not_a_primary_database (DATABASES w) database).
  - by rewrite (get_meta_class _ _ _ Hc).
  - by rewrite (setattr_class _ _ _ _ _ Hc).
Qed.

Lemma configure_database_no_class shard_group database sharded_by_field cls w :
  truthy database = true →
  truthy shard_group = false →
  classes w !! cls = None →
  ∃ attr, configure shard_group database sharded_by_field cls w =
            (Raise (AttributeError attr), w).
Proof.
  intros Hd Hg Hc. unfold configure.
  rewrite (seq_Return _ _ w w) by (apply check_arguments_one; by rewrite Hd, Hg).
  rewrite Hd, Hg. simpl when.
  unfold store_on_database, mbind, M_bind, bind, gets.
  destruct (not_a_primary_database (DATABASES w) database);
    unfold get_meta, setattr; rewrite Hc; by eexists.
Qed.

Lemma configure_rejects shard_group database sharded_by_field cls w :
  truthy database = truthy shard_group →
  ∃ msg, configure shard_group database sharded_by_field cls w =
           (Raise (ShardedModelInitializationException msg), w).
Proof.
  intros Hsame. unfold configure. destruct (truthy shard_group) eqn:Hg.
  - exists msg_both. by rewrite (seq_Raise _ _ _ _ _ (check_arguments_both _ _ w Hsame Hg)).
  - exists msg_neither.
    by rewrite (seq_Raise _ _ _ _ _ (check_arguments_neither _ _ w Hsame Hg)).
Qed.

(** A run that returns leaves the class configured. *)
Lemma configure_establishes shard_group database sharded_by_field cls w r w' :
  configure shard_group database sharded_by_field cls w = (Return r, w') →
  r = cls ∧ configured shard_group database sharded_by_field cls w'.
Proof.
  intros Hrun.
  destruct (truthy database) eqn:Hd, (truthy shard_group) eqn:Hg.
  - destruct (configure_rejects shard_group database sharded_by_field cls w) as [msg Hmsg];
      [congruence | by rewrite Hmsg in Hrun].
  - destruct (classes w !! cls) as [c|] eqn:Hc.
    + rewrite (configure_database_run _ _ _ _ _ _ Hd Hg Hc) in Hrun.
      destruct (not_a_primary_database (DATABASES w) database) eqn:Hprimary; [done|].
      injection Hrun as <- <-. split; [done|].
      eexists. split; [apply classes_set_class|].
      rewrite Hd, Hg. split_and!; [done | | done | done].
      intros _. split; [done | apply lookup_insert_eq].
    + destruct (configure_database_no_class shard_group database sharded_by_field
                  cls w Hd Hg Hc) as [attr Hattr].
      by rewrite Hattr in Hrun.
  - destruct (truthy sharded_by_field) eqn:Hf.
    + pose proof (writes_only_configure shard_group database sharded_by_field cls w)
        as Hframe.
      pose proof Hrun as Hthen.
      rewrite (configure_through_manager_handling _ _ _ _ _ Hg Hf) in Hthen.
      destruct (through_manager_handling shard_group database cls w)
        as [[[]|e] w1] eqn:Hthrough;
        [|by rewrite (seq_Raise _ _ _ _ _ Hthrough) in Hthen].
      destruct (through_manager_handling_inv _ _ _ _ _ Hg Hthrough)
        as (_ & c0 & Hc0 & Hpass & Huse).
      destruct (configure_past_manager_handling _ _ sharded_by_field _ _ _ Hg Hf Hthrough)
        as (c & c1 & Hc & _ & Hc1 & Hgroup & Hsharded & _ & Hrun').
      assert (c = c0) as -> by congruence.
      rewrite Hrun in Hframe. rewrite Hrun' in Hrun.
      destruct (has_callable w1 cls "get_shard_from_id") eqn:Hcallable; [|done].
      injection Hrun as <- <-. split; [done|].
      eexists. split; [apply classes_set_class|].
      rewrite Hd, Hg. split_and!; [done | done | |].
      * intros _. split_and!.
        -- cbn [snd] in Hframe.
           by rewrite (frame_passes_validations class_writes cls w _ c0 _ Hframe
                         ltac:(unfold class_writes; names_apart) Hc0
                         (classes_set_class _ _ _)).
        -- simpl. by rewrite lookup_insert_ne.
        -- simpl. by rewrite lookup_insert_ne.
      * intros _ _. split_and!.
        -- apply shard_manager_in_place_set_dict; [done | done |].
           by eapply use_shard_manager_establishes.
        -- simpl. apply lookup_insert_eq.
        -- by rewrite (frame_has_callable _ _ _ _ _
                         (frame_setattr _ _ "django_sharding__sharded_by_field"
                            sharded_by_field _ Hc1)) by names_apart.
    + destruct (classes w !! cls) as [c|] eqn:Hc.
      * destruct (passes_validations w cls c) eqn:Hpass.
        -- rewrite (configure_validated _ _ _ _ _ _ Hg Hd Hc Hpass), Hf in Hrun.
           injection Hrun as <- <-. split; [done|].
           eexists. split; [apply classes_set_class|].
           rewrite Hd, Hg, Hf. split_and!; [done | done | | done].
           intros _. split_and!.
           ++ by rewrite (frame_passes_validations _ cls w _ c _
                            (frame_marked shard_group _ _ _ Hc) ltac:(names_apart) Hc
                            (classes_set_class _ _ _)).
           ++ simpl. by rewrite lookup_insert_ne, lookup_insert_eq.
           ++ simpl. apply lookup_insert_eq.
        -- destruct (validate_sharded_model_fails _ _ _ Hc Hpass) as [msg Hmsg].
           by rewrite (configure_validation_raises _ _ sharded_by_field _ _ _ Hg Hd Hmsg)
             in Hrun.
      * by rewrite (configure_validation_raises _ _ sharded_by_field _ _ _ Hg Hd
                      (validate_sharded_model_no_class _ _ Hc)) in Hrun.
  - destruct (configure_rejects shard_group database sharded_by_field cls w) as [msg Hmsg];
      [congruence | by rewrite Hmsg in Hrun].
Qed.

(** On a configured class every check passes and every write sets an
    attribute to the value it has. *)
Lemma configure_fixed_point shard_group database sharded_by_field cls w :
  configured shard_group database sharded_by_field cls w →
  configure shard_group database sharded_by_field cls w = (Return cls, w).
Proof.
  intros (c & Hc & Hone & Hdatabase & Hsharded & Hfield).
  destruct (truthy shard_group) eqn:Hg; simpl in Hone.
  - destruct (Hsharded eq_refl) as (Hpass & Hgroup & Hmark).
    rewrite (configure_validated _ _ _ _ _ _ Hg Hone Hc Hpass).
    rewrite (marked_same _ _ _ _ Hc Hgroup Hmark).
    destruct (truthy sharded_by_field) eqn:Hf; [|done].
    destruct (Hfield eq_refl eq_refl) as (Hplace & Hattr & Hcallable).
    simpl when. rewrite seq_assoc.
    rewrite (seq_Return _ _ _ _ (use_shard_manager_in_place _ _ Hplace)).
    unfold mbind, M_bind, bind.
    rewrite (record_sharded_by_field_run _ _ _ _ Hc), Hcallable.
    by rewrite (set_dict_same _ _ _ Hattr), (set_class_same _ _ _ Hc).
  - destruct (Hdatabase Hone) as (Hprimary & Hattr).
    rewrite (configure_database_run _ _ _ _ _ _ Hone Hg Hc), Hprimary.
    by rewrite (set_dict_same _ _ _ Hattr), (set_class_same _ _ _ Hc).
Qed.

(** X2: Whenever the decorator returns, the class it leaves meets every check of
    the decorator and carries every attribute the arguments ask for: exactly
    one of [database] and [shard_group] was given; the database is a primary
    one and is recorded; or the validations hold and the class is marked as
    sharded; and with a [sharded_by_field], a [ShardManager] is in place, the
    field is recorded and [get_shard_from_id] is callable. *)
Theorem success_establishes_configuration
    shard_group database sharded_by_field cls w returned w' :
  model_config shard_group database sharded_by_field cls w = (Return returned, w') →
  configured shard_group database sharded_by_field cls w'.
Proof. intros Hrun. by apply configure_establishes in Hrun as [_ Hconfigured]. Qed.

Lemma success_establishes_configuration_witness :
  configured (PyStr "app_shard_group") PyNone (PyStr "user_id") 0
    (model_config (PyStr "app_shard_group") PyNone (PyStr "user_id") 0
       Sample.sample_world).2.
Proof.
  apply (success_establishes_configuration (PyStr "app_shard_group") PyNone
           (PyStr "user_id") 0 Sample.sample_world 0).
  vm_compute. reflexivity.
Defined.

(** X3: A class that is already configured for the arguments is accepted and
    returned, and the run writes nothing at all. *)
Theorem configured_class_accepted_unchanged
    shard_group database sharded_by_field cls w :
  configured shard_group database sharded_by_field cls w →
  model_config shard_group database sharded_by_field cls w = (Return cls, w).
Proof. apply configure_fixed_point. Qed.

(** X4: Decorating twice is decorating once: when a run returns, a second run
    with the same arguments on the class it left returns too and leaves the
    world as the first run left it (no second manager is created). *)
Theorem decoration_idempotent
    shard_group database sharded_by_field cls w returned w' :
  model_config shard_group database sharded_by_field cls w = (Return returned, w') →
  model_config shard_group database sharded_by_field cls w' = (Return returned, w').
Proof.
  intros Hrun. apply configure_establishes in Hrun as [-> Hconfigured].
  by apply configure_fixed_point.
Qed.

Lemma decoration_idempotent_witness :
  model_config (PyStr "app_shard_group") PyNone (PyStr "user_id") 0
    (model_config (PyStr "app_shard_group") PyNone (PyStr "user_id") 0
       Sample.sample_world).2 =
    (Return 0,
     (model_config (PyStr "app_shard_group") PyNone (PyStr "user_id") 0
        Sample.sample_world).2).
Proof.
  apply (decoration_idempotent (PyStr "app_shard_group") PyNone (PyStr "user_id") 0
           Sample.sample_world 0).
  vm_compute. reflexivity.
Defined.

Lemma configured_class_accepted_unchanged_witness :
  model_config PyNone (PyStr "default") PyNone 3
    (set_class 3 (set_dict Sample.Plain "django_sharding__database" (PyStr "default"))
       Sample.sample_world) =
    (Return 3,
     set_class 3 (set_dict Sample.Plain "django_sharding__database" (PyStr "default"))
       Sample.sample_world).
Proof.
  apply configured_class_accepted_unchanged.
  exists (set_dict Sample.Plain "django_sharding__database" (PyStr "default")).
  split_and!; [reflexivity | reflexivity | | discriminate | discriminate].
  intros _. split; reflexivity.
Defined.

(** ** Runs without a [sharded_by_field] *)

(** Without a [sharded_by_field] a run raises with nothing written, or tags
    the class with the database, or marks it as sharded. *)
Lemma configure_without_field shard_group database sharded_by_field cls w :
  truthy sharded_by_field = false →
  (∃ e, configure shard_group database sharded_by_field cls w = (Raise e, w)) ∨
  ∃ c,
    classes w !! cls = Some c ∧
    (configure shard_group database sharded_by_field cls w =
       (Return cls, set_class cls (set_dict c "django_sharding__database" database) w) ∨
     configure shard_group database sharded_by_field cls w =
       (Return cls, marked shard_group cls c w)).
Proof.
  intros Hf.
  destruct (truthy database) eqn:Hd, (truthy shard_group) eqn:Hg.
  - left. destruct (configure_rejects shard_group database sharded_by_field cls w)
      as [msg Hmsg]; [congruence | by eexists].
  - destruct (classes w !! cls) as [c|] eqn:Hc.
    + rewrite (configure_database_run _ _ _ _ _ _ Hd Hg Hc).
      destruct (not_a_primary_database (DATABASES w) database).
      * left. by eexists.
      * right. exists c. split; [done | by left].
    + left. destruct (configure_database_no_class shard_group database sharded_by_field
                        cls w Hd Hg Hc) as [attr Hattr]. by eexists.
  - destruct (classes w !! cls) as [c|] eqn:Hc.
    + destruct (passes_validations w cls c) eqn:Hpass.
      * right. exists c. split; [done | right].
        by rewrite (configure_validated _ _ _ _ _ _ Hg Hd Hc Hpass), Hf.
      * left. destruct (validate_sharded_model_fails _ _ _ Hc Hpass) as [msg Hmsg].
        eexists. by apply configure_validation_raises.
    + left. eexists.
      by apply configure_validation_raises, validate_sharded_model_no_class.
  - left. destruct (configure_rejects shard_group database sharded_by_field cls w)
      as [msg Hmsg]; [congruence | by eexists].
Qed.

(** X9: Without a [sharded_by_field] the error paths are atomic: whatever
    exception the decorator raises, it raises it before the first write, and
    the world is left exactly as it was. *)
Theorem errors_atomic_without_field
    shard_group database sharded_by_field cls w e w' :
  truthy sharded_by_field = false →
  model_config shard_group database sharded_by_field cls w = (Raise e, w') →
  w' = w.
Proof.
  intros Hf Hrun. unfold model_config in Hrun.
  destruct (configure_without_field shard_group database sharded_by_field cls w Hf)
    as [[e' He'] | (c & _ & [Hreturn | Hreturn])].
  - rewrite He' in Hrun. by injection Hrun.
  - by rewrite Hreturn in Hrun.
  - by rewrite Hreturn in Hrun.
Qed.

Lemma errors_atomic_without_field_witness :
  (model_config (PyStr "app_shard_group") PyNone PyNone 3 Sample.sample_world).2 =
    Sample.sample_world.
Proof.
  apply (errors_atomic_without_field (PyStr "app_shard_group") PyNone PyNone 3
           Sample.sample_world
           (ShardedModelInitializationException msg_no_sharded_field));
    reflexivity.
Defined.

(** X10: Without a [sharded_by_field] the managers are never touched: no instance
    is created, [_meta] is left as it is, and on the class only
    [django_sharding__database], [django_sharding__shard_group] and
    [django_sharding__is_sharded] may be written. *)
Theorem managers_untouched_without_field
    shard_group database sharded_by_field cls w :
  truthy sharded_by_field = false →
  instances (model_config shard_group database sharded_by_field cls w).2 = instances w ∧
  frame [ "django_sharding__database"; "django_sharding__shard_group";
          "django_sharding__is_sharded" ] cls w
    (model_config shard_group database sharded_by_field cls w).2 ∧
  ∀ c c',
    classes w !! cls = Some c →
    classes (model_config shard_group database sharded_by_field cls w).2 !! cls = Some c' →
    _meta c' = _meta c.
Proof.
  intros Hf. unfold model_config.
  destruct (configure_without_field shard_group database sharded_by_field cls w Hf)
    as [[e ->] | (c & Hc & [-> | ->])]; cbn [snd].
  - split_and!; [done | apply frame_refl | congruence].
  - split_and!; [done | |].
    + eapply frame_mono; [|by apply frame_setattr]. names_solve.
    + intros c0 c'. rewrite classes_set_class. intros Hc0 [= <-]. simpl. congruence.
  - split_and!; [done | |].
    + eapply frame_mono; [|by apply frame_marked]. names_solve.
    + intros c0 c'. unfold marked. rewrite classes_set_class.
      intros Hc0 [= <-]. simpl. congruence.
Qed.

Lemma managers_untouched_without_field_witness :
  instances (model_config (PyStr "app_shard_group") PyNone PyNone 0
               Sample.sample_world).2 = instances Sample.sample_world ∧
  frame [ "django_sharding__database"; "django_sharding__shard_group";
          "django_sharding__is_sharded" ] 0 Sample.sample_world
    (model_config (PyStr "app_shard_group") PyNone PyNone 0 Sample.sample_world).2 ∧
  ∀ c c',
    classes Sample.sample_world !! 0 = Some c →
    classes (model_config (PyStr "app_shard_group") PyNone PyNone 0
               Sample.sample_world).2 !! 0 = Some c' →
    _meta c' = _meta c.
Proof.
  apply (managers_untouched_without_field (PyStr "app_shard_group") PyNone PyNone 0
           Sample.sample_world). reflexivity.
Defined.

(** X11: The two kinds of tag exclude each other within a run.  With no
    [shard_group] the run writes nothing, or sets
    [django_sharding__database] on the class and nothing else.  With no
    [database] the run leaves [django_sharding__database] as it was. *)
Theorem tags_exclusive shard_group database sharded_by_field cls w :
  (truthy shard_group = false →
   (model_config shard_group database sharded_by_field cls w).2 = w ∨
   ∃ c,
     classes w !! cls = Some c ∧
     (model_config shard_group database sharded_by_field cls w).2 =
       set_class cls (set_dict c "django_sharding__database" database) w) ∧
  (truthy database = false →
   ∀ c c',
     classes w !! cls = Some c →
     classes (model_config shard_group database sharded_by_field cls w).2 !! cls = Some c' →
     __dict__ c' !! "django_sharding__database" = __dict__ c !! "django_sharding__database").
Proof.
  unfold model_config. split.
  - intros Hg. destruct (truthy database) eqn:Hd.
    + destruct (classes w !! cls) as [c|] eqn:Hc.
      * rewrite (configure_database_run _ _ _ _ _ _ Hd Hg Hc).
        destruct (not_a_primary_database (DATABASES w) database); [by left|].
        right. by exists c.
      * destruct (configure_database_no_class shard_group database sharded_by_field
                    cls w Hd Hg Hc) as [attr ->]. by left.
    + destruct (configure_rejects shard_group database sharded_by_field cls w)
        as [msg ->]; [congruence | by left].
  - intros Hd c c' Hc Hc'.
    assert (Hframe : frame [ "django_sharding__shard_group"; "django_sharding__is_sharded";
                             "django_sharding__sharded_by_field"; "objects";
                             "_base_manager"; "_default_manager" ] cls w
                       (configure shard_group database sharded_by_field cls w).2).
    { revert w Hc Hc'. intros w _ _. revert w. unfold configure.
      rewrite Hd. simpl when.
      unfold check_arguments, validate_sharded_model.
      repeat
        lazymatch goal with
        | |- writes_only _ _ (mark_sharded _ _) =>
            eapply writes_only_mono; [|apply writes_only_mark_sharded]
        | |- writes_only _ _ (use_shard_manager _) =>
            eapply writes_only_mono; [|apply writes_only_use_shard_manager]
        | |- writes_only _ _ (record_sharded_by_field _ _) =>
            eapply writes_only_mono; [|apply writes_only_record_sharded_by_field]
        | |- writes_only _ _ _ => writes_only_step
        | |- ∀ w, frame ?names ?cls w (?m w).2 => change (writes_only names cls m)
        end;
        names_solve. }
    destruct (frame_class _ _ _ _ _ Hframe Hc) as (c'' & Hc'' & (_&_&_&_&_&_&Hdict)).
    assert (c'' = c') as -> by congruence.
    apply Hdict. names_apart.
Qed.

Lemma tags_exclusive_witness :
  ((model_config PyNone (PyStr "default") PyNone 3 Sample.sample_world).2 =
     Sample.sample_world ∨
   ∃ c,
     classes Sample.sample_world !! 3 = Some c ∧
     (model_config PyNone (PyStr "default") PyNone 3 Sample.sample_world).2 =
       set_class 3 (set_dict c "django_sharding__database" (PyStr "default"))
         Sample.sample_world) ∧
  ∀ c c',
    classes Sample.sample_world !! 0 = Some c →
    classes (model_config (PyStr "app_shard_group") PyNone (PyStr "user_id") 0
               Sample.sample_world).2 !! 0 = Some c' →
    __dict__ c' !! "django_sharding__database" = __dict__ c !! "django_sharding__database".
Proof.
  split.
  - apply (tags_exclusive PyNone (PyStr "default") PyNone 3 Sample.sample_world).
    reflexivity.
  - apply (tags_exclusive (PyStr "app_shard_group") PyNone (PyStr "user_id") 0
             Sample.sample_world). reflexivity.
Defined.

(** X8: The validations of lines 30-38 fail in order, each with its own message:
    no [ShardedIDFieldMixin] field; such a field, but none equal to the
    primary key; both, but no callable [get_shard]. *)
Theorem validation_failure_messages shard_group database sharded_by_field cls c w :
  truthy shard_group = true →
  truthy database = false →
  classes w !! cls = Some c →
  (has_sharded_id_field c = false →
   model_config shard_group database sharded_by_field cls w =
     (Raise (ShardedModelInitializationException msg_no_sharded_field), w)) ∧
  (has_sharded_id_field c = true →
   sharded_id_field_is_pk c = false →
   model_config shard_group database sharded_by_field cls w =
     (Raise (ShardedModelInitializationException msg_pk), w)) ∧
  (sharded_id_field_is_pk c = true →
   has_callable w cls "get_shard" = false →
   model_config shard_group database sharded_by_field cls w =
     (Raise (ShardedModelInitializationException msg_get_shard), w)).
Proof.
  intros Hg Hd Hc. unfold model_config.
  pose proof (validate_sharded_model_run _ _ _ Hc) as Hrun.
  split_and!.
  - intros Hfield. rewrite Hfield in Hrun. by apply configure_validation_raises.
  - intros Hfield Hpk. rewrite Hfield, Hpk in Hrun. by apply configure_validation_raises.
  - intros Hpk Hshard.
    assert (Hfield : has_sharded_id_field c = true).
    { unfold sharded_id_field_is_pk in Hpk. unfold has_sharded_id_field.
      apply existsb_exists in Hpk as (field & Hin & Hboth).
      apply existsb_exists. exists field. split; [done|].
      by apply andb_true_iff in Hboth as [? _]. }
    rewrite Hfield, Hpk, Hshard in Hrun. by apply configure_validation_raises.
Qed.

Lemma validation_failure_messages_witness :
  model_config (PyStr "app_shard_group") PyNone (PyStr "user_id") 3 Sample.sample_world =
    (Raise (ShardedModelInitializationException msg_no_sharded_field),
     Sample.sample_world).
Proof.
  apply (validation_failure_messages (PyStr "app_shard_group") PyNone (PyStr "user_id") 3
           Sample.Plain Sample.sample_world); reflexivity.
Defined.

(** ** Where the exceptions come from *)

Section raises_only.
Context (P : exn → Prop).

Lemma raises_only_mret {A} (a : A) : raises_only P (mret a).
Proof. by intros w e. Qed.

Lemma raises_only_raise {A} e : P e → raises_only P (@raise A e).
Proof. intros He w e' [= <-]. done. Qed.

Lemma raises_only_gets {A} (f : world → A) : raises_only P (gets f).
Proof. by intros w e. Qed.

Lemma raises_only_bind {A B} (m : M A) (f : A → M B) :
  raises_only P m → (∀ a, raises_only P (f a)) → raises_only P (bind m f).
Proof.
  intros Hm Hf w e. unfold bind. specialize (Hm w).
  destruct (m w) as [[a|e'] w']; simpl in *; [apply Hf | intros [= <-]; by apply Hm].
Qed.

Lemma raises_only_seq {B} (m : M unit) (k : M B) :
  raises_only P m → raises_only P k → raises_only P (m ;; k).
Proof. intros Hm Hk. apply raises_only_bind; [done | by intros _]. Qed.

Lemma raises_only_when b (m : M unit) : raises_only P m → raises_only P (when b m).
Proof. destruct b; [done | intros _; apply raises_only_mret]. Qed.

Lemma raises_only_try {A} (body : M A) handler :
  raises_only P body →
  (∀ attr, raises_only P (handler (AttributeError attr))) →
  raises_only P (try_except_AttributeError body handler).
Proof.
  intros Hbody Hhandler w e. unfold try_except_AttributeError. specialize (Hbody w).
  destruct (body w) as [[a|[msg|model database|attr]] w']; simpl in *;
    try done; [..|apply Hhandler]; intros [= <-]; by apply Hbody.
Qed.

Context (HAttributeError : ∀ attr, P (AttributeError attr)).

Lemma raises_only_getattr cls name : raises_only P (getattr cls name).
Proof.
  intros w e. unfold getattr.
  destruct (class_getattr w cls name); simpl; [done | by intros [= <-]].
Qed.

Lemma raises_only_getattr_default cls name d : raises_only P (getattr_default cls name d).
Proof. intros w e. by rewrite getattr_default_run. Qed.

Lemma raises_only_setattr cls name v : raises_only P (setattr cls name v).
Proof.
  intros w e. unfold setattr.
  destruct (classes w !! cls); simpl; [done | by intros [= <-]].
Qed.

Lemma raises_only_get_meta cls : raises_only P (get_meta cls).
Proof.
  intros w e. unfold get_meta.
  destruct (classes w !! cls); simpl; [done | by intros [= <-]].
Qed.

Lemma raises_only_get_name cls : raises_only P (get_name cls).
Proof.
  intros w e. unfold get_name.
  destruct (classes w !! cls); simpl; [done | by intros [= <-]].
Qed.

Lemma raises_only_new t : raises_only P (new t).
Proof. by intros w e. Qed.

Lemma raises_only_append_manager cls manager :
  raises_only P (append_manager cls manager).
Proof.
  intros w e. unfold append_manager.
  destruct (classes w !! cls); simpl; [done | by intros [= <-]].
Qed.

Lemma raises_only_add_to_class cls name manager :
  raises_only P (add_to_class cls name manager).
Proof.
  unfold add_to_class.
  apply raises_only_bind; [apply raises_only_get_meta|]. intros meta.
  apply raises_only_seq; [destruct (abstract meta); apply raises_only_setattr|].
  apply raises_only_bind; [apply raises_only_getattr_default|]. intros default_manager.
  apply raises_only_seq; [|apply raises_only_append_manager].
  apply raises_only_when, raises_only_setattr.
Qed.
End raises_only.

Ltac raises_only_step :=
  lazymatch goal with
  | |- raises_only _ (mbind _ _) => apply raises_only_seq
  | |- raises_only _ (bind _ _) => apply raises_only_bind; [|intros ?]
  | |- raises_only _ (when _ _) => apply raises_only_when
  | |- raises_only _ (try_except_AttributeError _ _) =>
      apply raises_only_try; [|intros ?]
  | |- raises_only _ (mret _) => apply raises_only_mret
  | |- raises_only _ (raise _) => apply raises_only_raise
  | |- raises_only _ (gets _) => apply raises_only_gets
  | |- raises_only _ (isinstance _ _) => apply raises_only_gets
  | |- raises_only _ (type_is _ _) => apply raises_only_gets
  | |- raises_only _ (getattr_default _ _ _) => apply raises_only_getattr_default
  | |- raises_only _ (getattr _ _) => apply raises_only_getattr
  | |- raises_only _ (get_meta _) => apply raises_only_get_meta
  | |- raises_only _ (get_name _) => apply raises_only_get_name
  | |- raises_only _ (new _) => apply raises_only_new
  | |- raises_only _ (setattr _ _ _) => apply raises_only_setattr
  | |- raises_only _ (add_to_class _ _ _) => apply raises_only_add_to_class
  | |- raises_only _ (if ?b then _ else _) => destruct b
  end.

(** Nothing from line 29 on raises [NonExistentDatabaseException]. *)
Lemma raises_only_sharded shard_group database sharded_by_field cls :
  truthy database = false →
  raises_only not_a_database_error (configure shard_group database sharded_by_field cls).
Proof.
  intros Hd.
  unfold configure, check_arguments, validate_sharded_model, mark_sharded,
    use_shard_manager, replace_default_manager, abstract_model_manager,
    record_sharded_by_field.
  rewrite Hd. simpl when.
  repeat raises_only_step; done.
Qed.

(** X12: [NonExistentDatabaseException] has one source: when it is raised, a
    [database] and no [shard_group] was given, the database is not a primary
    database of [settings.DATABASES], the exception carries that database and
    the model name of the class, and nothing was written. *)
Theorem database_error_source
    shard_group database sharded_by_field cls w model_name' database' w' :
  model_config shard_group database sharded_by_field cls w =
    (Raise (NonExistentDatabaseException model_name' database'), w') →
  truthy database = true ∧
  truthy shard_group = false ∧
  not_a_primary_database (DATABASES w) database = true ∧
  database' = database ∧
  (∃ c, classes w !! cls = Some c ∧ model_name' = model_name (_meta c)) ∧
  w' = w.
Proof.
  unfold model_config. intros Hrun.
  destruct (truthy database) eqn:Hd.
  - destruct (truthy shard_group) eqn:Hg.
    + destruct (configure_rejects shard_group database sharded_by_field cls w)
        as [msg Hmsg]; [congruence | by rewrite Hmsg in Hrun].
    + destruct (classes w !! cls) as [c|] eqn:Hc.
      * rewrite (configure_database_run _ _ _ _ _ _ Hd Hg Hc) in Hrun.
        destruct (not_a_primary_database (DATABASES w) database); [|done].
        injection Hrun as <- <- <-. split_and!; try done. by exists c.
      * destruct (configure_database_no_class shard_group database sharded_by_field
                    cls w Hd Hg Hc) as [attr Hattr].
        by rewrite Hattr in Hrun.
  - pose proof (raises_only_sharded shard_group database sharded_by_field cls Hd w
                  (NonExistentDatabaseException model_name' database')) as Hnever.
    rewrite Hrun in Hnever. by destruct Hnever.
Qed.

Lemma database_error_source_witness :
  truthy (PyStr "app_shard_001_replica_001") = true ∧
  truthy PyNone = false ∧
  not_a_primary_database (DATABASES Sample.sample_world)
    (PyStr "app_shard_001_replica_001") = true ∧
  PyStr "app_shard_001_replica_001" = PyStr "app_shard_001_replica_001" ∧
  (∃ c, classes Sample.sample_world !! 3 = Some c ∧ "plain" = model_name (_meta c)) ∧
  Sample.sample_world = Sample.sample_world.
Proof.
  apply (database_error_source PyNone (PyStr "app_shard_001_replica_001") PyNone 3
           Sample.sample_world "plain" (PyStr "app_shard_001_replica_001")
           Sample.sample_world).
  reflexivity.
Defined.

Lemma use_shard_manager_attribute_error cls c attr w w' :
  classes w !! cls = Some c →
  use_shard_manager cls w = (Raise (AttributeError attr), w') →
  attr = "objects" ∧
  abstract (_meta c) = false ∧
  class_getattr w cls "objects" = None ∧
  w' = w.
Proof.
  intros Hc Huse.
  destruct (class_getattr w cls "objects") as [objects|] eqn:Hobjects.
  - destruct (isinstance_in w objects ShardManager) eqn:Hshard.
    { by rewrite (use_shard_manager_kept _ _ _ Hobjects Hshard) in Huse. }
    destruct (type_is_in w objects Manager) eqn:Hdefault.
    + destruct (abstract (_meta c)) eqn:Habstract.
      * by rewrite (use_shard_manager_abstract_default _ _ _ _ Hc Habstract Hobjects Hdefault)
          in Huse.
      * destruct (use_shard_manager_replaced _ _ _ _ Hc Habstract Hobjects Hdefault)
          as (w1 & Hrun & _).
        by rewrite Hrun in Huse.
    + by rewrite (use_shard_manager_refused _ _ _ Hobjects Hshard Hdefault) in Huse.
  - rewrite (use_shard_manager_unreadable _ _ Hobjects) in Huse.
    destruct (abstract (_meta c)) eqn:Habstract.
    + destruct (abstract_managers (_meta c)) as [|x managers] eqn:Hmanagers.
      * by rewrite (abstract_model_manager_registers _ _ _ _ Hc Habstract Hmanagers) in Huse.
      * rewrite (abstract_model_manager_checks _ c) in Huse by (done || by rewrite Hmanagers).
        by destruct (has_shard_manager w c).
    + rewrite (abstract_model_manager_concrete _ _ _ _ Hc Habstract) in Huse.
      by injection Huse as <- <-.
Qed.

(** X13: On a model class [AttributeError] has one source, lines 63-65: when it is
    raised, a [shard_group] and a [sharded_by_field] but no [database] were
    given, the validations passed, the class is concrete and its [objects]
    could not be read; the error is the one of line 46, and the class is left
    with the marks of lines 40-41. *)
Theorem attribute_error_source
    shard_group database sharded_by_field cls c w attr w' :
  classes w !! cls = Some c →
  model_config shard_group database sharded_by_field cls w =
    (Raise (AttributeError attr), w') →
  attr = "objects" ∧
  truthy shard_group = true ∧
  truthy database = false ∧
  truthy sharded_by_field = true ∧
  passes_validations w cls c = true ∧
  abstract (_meta c) = false ∧
  class_getattr w cls "objects" = None ∧
  w' = marked shard_group cls c w.
Proof.
  unfold model_config. intros Hc Hrun.
  destruct (truthy sharded_by_field) eqn:Hf.
  2: { destruct (configure_without_field shard_group database sharded_by_field cls w Hf)
         as [[e He] | (c0 & _ & [Hreturn | Hreturn])];
         [|by rewrite Hreturn in Hrun..].
       exfalso. rewrite He in Hrun. injection Hrun as -> <-.
       destruct (truthy database) eqn:Hd, (truthy shard_group) eqn:Hg.
       - destruct (configure_rejects shard_group database sharded_by_field cls w)
           as [msg Hmsg]; [congruence | by rewrite Hmsg in He].
       - rewrite (configure_database_run _ _ _ _ _ _ Hd Hg Hc) in He.
         by destruct (not_a_primary_database (DATABASES w) database).
       - destruct (passes_validations w cls c) eqn:Hpass.
         + by rewrite (configure_validated _ _ _ _ _ _ Hg Hd Hc Hpass), Hf in He.
         + destruct (validate_sharded_model_fails _ _ _ Hc Hpass) as [msg Hmsg].
           by rewrite (configure_validation_raises _ _ sharded_by_field _ _ _ Hg Hd Hmsg)
             in He.
       - destruct (configure_rejects shard_group database sharded_by_field cls w)
           as [msg Hmsg]; [congruence | by rewrite Hmsg in He]. }
  destruct (truthy database) eqn:Hd, (truthy shard_group) eqn:Hg.
  - destruct (configure_rejects shard_group database sharded_by_field cls w)
      as [msg Hmsg]; [congruence | by rewrite Hmsg in Hrun].
  - rewrite (configure_database_run _ _ _ _ _ _ Hd Hg Hc) in Hrun.
    by destruct (not_a_primary_database (DATABASES w) database).
  - destruct (passes_validations w cls c) eqn:Hpass.
    + rewrite (configure_sharded_by_field _ _ _ _ _ _ Hg Hd Hf Hc Hpass) in Hrun.
      destruct (marked_class shard_group cls c w) as (cm & Hcm & _ & _ & Habstract).
      destruct (use_shard_manager cls (marked shard_group cls c w))
        as [[[]|e] w1] eqn:Huse.
      * exfalso. rewrite (seq_Return _ _ _ _ Huse) in Hrun.
        destruct (frame_class _ _ _ _ _ (frame_use_shard_manager _ _ _ _ Huse) Hcm)
          as (c1 & Hc1 & _).
        unfold mbind, M_bind, bind in Hrun.
        rewrite (record_sharded_by_field_run _ _ _ _ Hc1) in Hrun.
        by destruct (has_callable w1 cls "get_shard_from_id").
      * rewrite (seq_Raise _ _ _ _ _ Huse) in Hrun. injection Hrun as -> ->.
        destruct (use_shard_manager_attribute_error _ _ _ _ _ Hcm Huse)
          as (-> & Hconcrete & Hobjects & ->).
        rewrite (class_getattr_marked _ _ _ _ _ Hc) in Hobjects by names_apart.
        split_and!; try done. congruence.
    + destruct (validate_sharded_model_fails _ _ _ Hc Hpass) as [msg Hmsg].
      by rewrite (configure_validation_raises _ _ sharded_by_field _ _ _ Hg Hd Hmsg)
        in Hrun.
  - destruct (configure_rejects shard_group database sharded_by_field cls w)
      as [msg Hmsg]; [congruence | by rewrite Hmsg in Hrun].
Qed.

Lemma attribute_error_source_witness :
  "objects" = "objects" ∧
  truthy (PyStr "app_shard_group") = true ∧
  truthy PyNone = false ∧
  truthy (PyStr "user_id") = true ∧
  passes_validations AbstractSample.abstract_world 3 AbstractSample.Unready = true ∧
  abstract (_meta AbstractSample.Unready) = false ∧
  class_getattr AbstractSample.abstract_world 3 "objects" = None ∧
  marked (PyStr "app_shard_group") 3 AbstractSample.Unready AbstractSample.abstract_world =
    marked (PyStr "app_shard_group") 3 AbstractSample.Unready AbstractSample.abstract_world.
Proof.
  apply (attribute_error_source (PyStr "app_shard_group") PyNone (PyStr "user_id") 3
           AbstractSample.Unready AbstractSample.abstract_world "objects"
           (marked (PyStr "app_shard_group") 3 AbstractSample.Unready
              AbstractSample.abstract_world)); [reflexivity|].
  vm_compute. reflexivity.
Defined.

(** ** Nothing is taken away *)

Section keeps.
Context (R : world → world → Prop) `{!Reflexive R} `{!Transitive R}.

Lemma keeps_mret {A} (a : A) : keeps R (mret a).
Proof. by intros w. Qed.

Lemma keeps_raise {A} e : keeps R (@raise A e).
Proof. by intros w. Qed.

Lemma keeps_gets {A} (f : world → A) : keeps R (gets f).
Proof. by intros w. Qed.

Lemma keeps_bind {A B} (m : M A) (f : A → M B) :
  keeps R m → (∀ a, keeps R (f a)) → keeps R (bind m f).
Proof.
  intros Hm Hf w. unfold bind. specialize (Hm w).
  destruct (m w) as [[a|e] w']; simpl in *; [|done].
  etrans; [done | apply Hf].
Qed.

Lemma keeps_seq {B} (m : M unit) (k : M B) :
  keeps R m → keeps R k → keeps R (m ;; k).
Proof. intros Hm Hk. apply keeps_bind; [done | by intros _]. Qed.

Lemma keeps_when b (m : M unit) : keeps R m → keeps R (when b m).
Proof. destruct b; [done | intros _; apply keeps_mret]. Qed.

Lemma keeps_try {A} (body : M A) handler :
  keeps R body → (∀ e, keeps R (handler e)) →
  keeps R (try_except_AttributeError body handler).
Proof.
  intros Hbody Hhandler w. unfold try_except_AttributeError. specialize (Hbody w).
  destruct (body w) as [[a|[msg|model database|attr]] w']; simpl in *; try done.
  etrans; [done | apply Hhandler].
Qed.

Lemma keeps_getattr cls name : keeps R (getattr cls name).
Proof. intros w. unfold getattr. by destruct (class_getattr w cls name). Qed.

Lemma keeps_getattr_default cls name d : keeps R (getattr_default cls name d).
Proof. intros w. by rewrite getattr_default_run. Qed.

Lemma keeps_get_meta cls : keeps R (get_meta cls).
Proof. intros w. unfold get_meta. by destruct (classes w !! cls). Qed.

Lemma keeps_get_name cls : keeps R (get_name cls).
Proof. intros w. unfold get_name. by destruct (classes w !! cls). Qed.
End keeps.

Lemma class_grows_refl c : class_grows c c.
Proof. by split. Qed.

Lemma class_grows_trans c1 c2 c3 :
  class_grows c1 c2 → class_grows c2 c3 → class_grows c1 c3.
Proof.
  intros (Hdict12 & Habstract12 & Hconcrete12) (Hdict23 & Habstract23 & Hconcrete23).
  split_and!; [by intros k Hk; apply Hdict23, Hdict12 | by etrans | by etrans].
Qed.

#[local] Instance grows_refl cls : Reflexive (grows cls).
Proof.
  intros w. split_and!; [done | intros l t Hl Hnone; simpl in Hl; congruence |].
  destruct (classes w !! cls) as [c|] eqn:Hc; [|done].
  exists c. split; [done | apply class_grows_refl].
Qed.

#[local] Instance grows_trans cls : Transitive (grows cls).
Proof.
  intros w1 w2 w3 (Hsub12 & Hnew12 & Hcls12) (Hsub23 & Hnew23 & Hcls23).
  split_and!.
  - by etrans.
  - intros l t Hl3 Hl1.
    destruct (instances w2 !! l) as [t2|] eqn:Hl2.
    + pose proof (lookup_weaken _ _ _ _ Hl2 Hsub23) as Hl3'.
      assert (t2 = t) as -> by congruence. by apply (Hnew12 l).
    + by apply (Hnew23 l).
  - destruct (classes w1 !! cls) as [c1|].
    + destruct Hcls12 as (c2 & Hc2 & Hgrows12). rewrite Hc2 in Hcls23.
      destruct Hcls23 as (c3 & Hc3 & Hgrows23).
      exists c3. split; [done | by eapply class_grows_trans].
    + by rewrite Hcls12 in Hcls23.
Qed.

Lemma grows_setattr cls name v : keeps (grows cls) (setattr cls name v).
Proof.
  intros w. unfold setattr.
  destruct (classes w !! cls) as [c|] eqn:Hc; simpl; [|reflexivity].
  split_and!; [done | intros l t Hl Hnone; simpl in Hl; congruence |]. rewrite Hc.
  eexists. split; [apply lookup_insert_eq|]. split; [|done].
  intros k Hk. simpl. destruct (decide (name = k)) as [->|Hne].
  - rewrite lookup_insert_eq. by eexists.
  - by rewrite lookup_insert_ne.
Qed.

Lemma grows_new_ShardManager cls : keeps (grows cls) (new ShardManager).
Proof.
  intros w. unfold new; simpl. split_and!.
  - apply insert_subseteq, not_elem_of_dom, is_fresh.
  - intros l t. simpl. destruct (decide (fresh (dom (instances w)) = l)) as [->|Hne].
    + rewrite lookup_insert_eq. congruence.
    + rewrite lookup_insert_ne by done. congruence.
  - simpl. destruct (classes w !! cls) as [c|] eqn:Hc; [|done].
    exists c. split; [done | apply class_grows_refl].
Qed.

Lemma grows_append_manager cls manager :
  keeps (grows cls) (append_manager cls manager).
Proof.
  intros w. unfold append_manager.
  destruct (classes w !! cls) as [c|] eqn:Hc; simpl; [|reflexivity].
  split_and!; [done | intros l t Hl Hnone; simpl in Hl; congruence |]. rewrite Hc.
  eexists. split; [apply lookup_insert_eq|]. split; [done|].
  simpl. destruct (abstract (_meta c)); split; try done; by apply prefix_app_r.
Qed.

Lemma grows_add_to_class cls name manager :
  keeps (grows cls) (add_to_class cls name manager).
Proof.
  unfold add_to_class.
  apply keeps_bind; [apply _ | apply keeps_get_meta; apply _ |]. intros meta.
  apply keeps_seq; [apply _ | destruct (abstract meta); apply grows_setattr |].
  apply keeps_bind; [apply _ | apply keeps_getattr_default; apply _ |].
  intros default_manager.
  apply keeps_seq; [apply _ | | apply grows_append_manager].
  apply keeps_when; [apply _ | apply grows_setattr].
Qed.

Ltac grows_step :=
  lazymatch goal with
  | |- keeps _ (mbind _ _) => apply keeps_seq; [apply _ | |]
  | |- keeps _ (bind _ _) => apply keeps_bind; [apply _ | | intros ?]
  | |- keeps _ (when _ _) => apply keeps_when; [apply _ |]
  | |- keeps _ (try_except_AttributeError _ _) =>
      apply keeps_try; [apply _ | | intros ?]
  | |- keeps _ (mret _) => apply keeps_mret; apply _
  | |- keeps _ (raise _) => apply keeps_raise; apply _
  | |- keeps _ (gets _) => apply keeps_gets; apply _
  | |- keeps _ (isinstance _ _) => apply keeps_gets; apply _
  | |- keeps _ (type_is _ _) => apply keeps_gets; apply _
  | |- keeps _ (getattr_default _ _ _) => apply keeps_getattr_default; apply _
  | |- keeps _ (getattr _ _) => apply keeps_getattr; apply _
  | |- keeps _ (get_meta _) => apply keeps_get_meta; apply _
  | |- keeps _ (get_name _) => apply keeps_get_name; apply _
  | |- keeps _ (new ShardManager) => apply grows_new_ShardManager
  | |- keeps _ (setattr _ _ _) => apply grows_setattr
  | |- keeps _ (add_to_class _ _ _) => apply grows_add_to_class
  | |- keeps _ (if ?b then _ else _) => destruct b
  end.

Lemma configure_grows shard_group database sharded_by_field cls :
  keeps (grows cls) (configure shard_group database sharded_by_field cls).
Proof.
  unfold configure, check_arguments, store_on_database, validate_sharded_model,
    mark_sharded, use_shard_manager, replace_default_manager, abstract_model_manager,
    record_sharded_by_field.
  repeat grows_step.
Qed.

(** X14: A run deletes nothing, whatever its outcome: every name bound in the
    class's own namespace stays bound (to the same value or to another: on an
    abstract class [objects] is rebound to a descriptor that raises when
    read), the managers recorded in [_meta] stay in place and in order (new
    ones are appended), every instance stays what it was, and every instance
    the run creates is a [ShardManager]. *)
Theorem nothing_taken_away shard_group database sharded_by_field cls w :
  grows cls w (model_config shard_group database sharded_by_field cls w).2.
Proof. apply configure_grows. Qed.

(** ** When the decorator succeeds *)

Lemma use_shard_manager_outcome cls c w :
  classes w !! cls = Some c →
  if manager_acceptable w cls c
  then ∃ w1, use_shard_manager cls w = (Return tt, w1)
  else ∃ e, use_shard_manager cls w = (Raise e, w).
Proof.
  intros Hc. unfold manager_acceptable.
  destruct (class_getattr w cls "objects") as [objects|] eqn:Hobjects.
  - destruct (isinstance_in w objects ShardManager) eqn:Hshard; simpl.
    { eexists. by apply use_shard_manager_kept with objects. }
    destruct (type_is_in w objects Manager) eqn:Hdefault.
    + destruct (abstract (_meta c)) eqn:Habstract.
      * eexists. by apply (use_shard_manager_abstract_default _ c objects).
      * destruct (use_shard_manager_replaced _ _ _ _ Hc Habstract Hobjects Hdefault)
          as (w1 & Hrun & _).
        by exists w1.
    + eexists. by apply use_shard_manager_refused with objects.
  - rewrite (use_shard_manager_unreadable _ _ Hobjects).
    destruct (abstract (_meta c)) eqn:Habstract; simpl.
    + destruct (abstract_managers (_meta c)) as [|x managers] eqn:Hmanagers; simpl.
      * eexists. by apply (abstract_model_manager_registers _ c).
      * rewrite (abstract_model_manager_checks _ c) by (done || by rewrite Hmanagers).
        destruct (has_shard_manager w c); by eexists.
    + eexists. by apply (abstract_model_manager_concrete _ c).
Qed.

Lemma manager_acceptable_marked shard_group cls c w :
  classes w !! cls = Some c →
  manager_acceptable (marked shard_group cls c w) cls
    (set_dict (set_dict c "django_sharding__shard_group" shard_group)
       "django_sharding__is_sharded" (PyBool true)) =
  manager_acceptable w cls c.
Proof.
  intros Hc. unfold manager_acceptable.
  by rewrite (class_getattr_marked _ _ _ _ _ Hc) by names_apart.
Qed.

(** X1: The decorator returns the class exactly when the class, as it is before
    the run, is fit for the arguments: with a [database] only, the database
    is a primary one; with a [shard_group] only, the validations of lines
    30-38 pass and, when a [sharded_by_field] is given, the manager is one
    the handling lets through and [get_shard_from_id] is callable. *)
Theorem success_criterion shard_group database sharded_by_field cls c w :
  classes w !! cls = Some c →
  (model_config shard_group database sharded_by_field cls w).1 = Return cls ↔
  (truthy database = true ∧ truthy shard_group = false ∧
   not_a_primary_database (DATABASES w) database = false) ∨
  (truthy shard_group = true ∧ truthy database = false ∧
   passes_validations w cls c = true ∧
   (truthy sharded_by_field = true →
    manager_acceptable w cls c = true ∧
    has_callable w cls "get_shard_from_id" = true)).
Proof.
  intros Hc. unfold model_config.
  destruct (truthy database) eqn:Hd, (truthy shard_group) eqn:Hg.
  - destruct (configure_rejects shard_group database sharded_by_field cls w)
      as [msg ->]; [congruence|]. simpl. split; [done|]. by intros [(_&?&_)|(_&?&_)].
  - rewrite (configure_database_run _ _ _ _ _ _ Hd Hg Hc).
    destruct (not_a_primary_database (DATABASES w) database); simpl.
    + split; [done|]. by intros [(_&_&?)|(?&_)].
    + split; [by left | done].
  - destruct (passes_validations w cls c) eqn:Hpass.
    2: { destruct (validate_sharded_model_fails _ _ _ Hc Hpass) as [msg Hmsg].
         rewrite (configure_validation_raises _ _ sharded_by_field _ _ _ Hg Hd Hmsg).
         simpl. split; [done|]. by intros [(?&_)|(_&_&?&_)]. }
    destruct (truthy sharded_by_field) eqn:Hf.
    2: { rewrite (configure_validated _ _ _ _ _ _ Hg Hd Hc Hpass), Hf. simpl.
         split; [|done]. intros _. right. by split_and!. }
    rewrite (configure_sharded_by_field _ _ _ _ _ _ Hg Hd Hf Hc Hpass).
    assert (Hcm : classes (marked shard_group cls c w) !! cls =
                  Some (set_dict (set_dict c "django_sharding__shard_group" shard_group)
                          "django_sharding__is_sharded" (PyBool true)))
      by apply classes_set_class.
    pose proof (use_shard_manager_outcome cls _ _ Hcm) as Houtcome.
    rewrite (manager_acceptable_marked _ _ _ _ Hc) in Houtcome.
    destruct (manager_acceptable w cls c).
    + destruct Houtcome as [w1 Huse].
      rewrite (seq_Return _ _ _ _ Huse).
      pose proof (frame_use_shard_manager _ _ _ _ Huse) as Hframe.
      destruct (frame_class _ _ _ _ _ Hframe Hcm) as (c1 & Hc1 & _).
      unfold mbind, M_bind, bind.
      rewrite (record_sharded_by_field_run _ _ _ _ Hc1).
      rewrite (frame_has_callable _ _ _ _ _ Hframe) by names_apart.
      rewrite (frame_has_callable _ _ _ _ _ (frame_marked shard_group _ _ _ Hc))
        by names_apart.
      destruct (has_callable w cls "get_shard_from_id"); simpl.
      * split; [|done]. intros _. right. by split_and!.
      * split; [done|]. intros [(?&_)|(_&_&_&Hfit)]; [done|]. by destruct Hfit.
    + destruct Houtcome as [e Huse].
      rewrite (seq_Raise _ _ _ _ _ Huse). simpl.
      split; [done|]. intros [(?&_)|(_&_&_&Hfit)]; [done|]. by destruct Hfit.
  - destruct (configure_rejects shard_group database sharded_by_field cls w)
      as [msg ->]; [congruence|]. simpl. split; [done|]. by intros [(?&_)|(?&_)].
Qed.

Lemma success_criterion_witness :
  (model_config (PyStr "app_shard_group") PyNone (PyStr "user_id") 0
     Sample.sample_world).1 = Return 0 ↔
  (truthy PyNone = true ∧ truthy (PyStr "app_shard_group") = false ∧
   not_a_primary_database (DATABASES Sample.sample_world) PyNone = false) ∨
  (truthy (PyStr "app_shard_group") = true ∧ truthy PyNone = false ∧
   passes_validations Sample.sample_world 0 Sample.ShardedUser = true ∧
   (truthy (PyStr "user_id") = true →
    manager_acceptable Sample.sample_world 0 Sample.ShardedUser = true ∧
    has_callable Sample.sample_world 0 "get_shard_from_id" = true)).
Proof.
  apply (success_criterion (PyStr "app_shard_group") PyNone (PyStr "user_id") 0
           Sample.ShardedUser Sample.sample_world). reflexivity.
Defined.

(** ** The manager of a sharded model, case by case *)




(** ** What a run touches *)

(** C8 as the spec words it fails on an abstract class that declares no
    manager: line 57 goes through [add_to_class], which also writes
    [cls._default_manager], an attribute that is none of
    [django_sharding__*], [objects] and [_base_manager]. *)
Lemma side_effects_confined_counterexample :
  ¬ (frame decorator_attributes 0 AbstractSample.abstract_world
       (model_config (PyStr "app_shard_group") PyNone (PyStr "user_id") 0
          AbstractSample.abstract_world).2 ∧
     ∀ returned,
       (model_config (PyStr "app_shard_group") PyNone (PyStr "user_id") 0
          AbstractSample.abstract_world).1 = Return returned →
       returned = 0).
Proof.
  intros [Hframe _].
  destruct (frame_class _ _ _ _ AbstractSample.AbstractBare Hframe eq_refl)
    as (c' & Hc' & (_&_&_&_&_&_&Hdict)).
  specialize (Hdict "_default_manager" ltac:(unfold decorator_attributes; names_apart)).
  vm_compute in Hc'. injection Hc' as <-.
  vm_compute in Hdict. discriminate.
Qed.

(** C8, as the code has it: whatever the arguments, the class and the
    outcome, a run leaves [settings.DATABASES], every other class and every
    existing instance as they were, and creates [ShardManager] instances
    only.  On the decorated class it leaves the name, the ancestors and the
    model name, fields, primary key and abstractness of [_meta] alone; it
    writes no attribute besides [django_sharding__database],
    [django_sharding__shard_group], [django_sharding__is_sharded],
    [django_sharding__sharded_by_field], [objects], [_base_manager] and,
    through [add_to_class], [_default_manager]; it unbinds no name; and the
    manager lists of [_meta] are only appended to.  When it returns, it
    returns the class it was given. *)
Theorem side_effects_confined shard_group database sharded_by_field cls w :
  frame class_writes cls w
    (model_config shard_group database sharded_by_field cls w).2 ∧
  grows cls w (model_config shard_group database sharded_by_field cls w).2 ∧
  ∀ returned,
    (model_config shard_group database sharded_by_field cls w).1 = Return returned →
    returned = cls.
Proof.
  split_and!; [apply writes_only_configure | apply configure_grows |].
  unfold model_config, configure. revert w.
  do 3 apply seq_returns. intros w r. simpl. congruence.
Qed.
